(** * ILLData: the SFTP client for the ILL data service

    A shallow embedding of [illdata/sftp.py] (the packaged client, class
    [IllSftp]) and of the older single-file client [illdata.py], together
    with the parts of the Python runtime they call: [str] methods,
    [posixpath], [pathlib.PurePosixPath], the [pysftp] connection and the
    local file system as seen through [os]. *)

From Stdlib Require Import Strings.String Strings.Ascii Lists.List Bool.Bool
  Arith.PeanoNat ZArith.ZArith micromega.Lia.
Import ListNotations.

Local Open Scope string_scope.
Local Open Scope list_scope.

(** ** Python [str] *)

Module PyStr.

Definition sep_char : ascii := "/"%char.

(** [s.startswith(p)] *)
Fixpoint startswith (s p : string) {struct p} : bool :=
  match p with
  | EmptyString => true
  | String b p' =>
      match s with
      | EmptyString => false
      | String a s' => Ascii.eqb a b && startswith s' p'
      end
  end.

(** [s[n:]] *)
Fixpoint slice_from (n : nat) (s : string) : string :=
  match n, s with
  | O, _ => s
  | S _, EmptyString => EmptyString
  | S n', String _ r => slice_from n' r
  end.

(** [s[:n]] *)
Fixpoint slice_to (n : nat) (s : string) : string :=
  match n, s with
  | O, _ => EmptyString
  | S _, EmptyString => EmptyString
  | S n', String c r => String c (slice_to n' r)
  end.

(** [s.endswith("/")] *)
Fixpoint endswith_sep (s : string) : bool :=
  match s with
  | EmptyString => false
  | String c EmptyString => Ascii.eqb c sep_char
  | String _ r => endswith_sep r
  end.

(** [bool(s)]: a string is truthy when it is not empty. *)
Definition truthy (s : string) : bool :=
  match s with EmptyString => false | String _ _ => true end.

(** [s.split("/")]: never the empty list; [n] separators give [n+1]
    fields. *)
Fixpoint split_sep (s : string) : list string :=
  match s with
  | EmptyString => [EmptyString]
  | String c r =>
      if Ascii.eqb c sep_char then EmptyString :: split_sep r
      else match split_sep r with
           | h :: t => String c h :: t
           | [] => [String c EmptyString]
           end
  end.

(** ["/".join(xs)] *)
Definition join_sep (xs : list string) : string := String.concat "/" xs.

(** [s.rstrip("/")] *)
Fixpoint rstrip_sep (s : string) : string :=
  match s with
  | EmptyString => EmptyString
  | String c r =>
      match rstrip_sep r with
      | EmptyString => if Ascii.eqb c sep_char then EmptyString
                       else String c EmptyString
      | r' => String c r'
      end
  end.

(** [a or b] on strings *)
Definition or_else (a b : string) : string := if truthy a then a else b.

End PyStr.

(** ** [posixpath] *)

Module posixpath.
Import PyStr.

(** One round of the loop of [posixpath.join(a, *p)]. *)
Definition join_step (path b : string) : string :=
  if startswith b "/" then b
  else if negb (truthy path) || endswith_sep path then path ++ b
  else path ++ "/" ++ b.

Definition join (a : string) (p : list string) : string :=
  fold_left join_step p a.

(** [posixpath.splitroot(p)], without the (always empty) drive:
    one leading slash or three and more give the root ["/"], exactly
    two give ["//"]. *)
Definition splitroot (p : string) : string * string :=
  if negb (String.eqb (slice_to 1 p) "/") then ("", p)
  else if negb (String.eqb (slice_to 1 (slice_from 1 p)) "/")
          || String.eqb (slice_to 1 (slice_from 2 p)) "/"
       then ("/", slice_from 1 p)
       else (slice_to 2 p, slice_from 2 p).

(** [p.rfind("/") + 1]: the position just after the last slash, 0 when
    there is none. *)
Fixpoint rfind_sep1 (s : string) : nat :=
  match s with
  | EmptyString => 0
  | String c r =>
      match rfind_sep1 r with
      | O => if Ascii.eqb c sep_char then 1 else 0
      | S k => S (S k)
      end
  end.

(** ["/" * n] *)
Fixpoint repeat_sep (n : nat) : string :=
  match n with
  | O => EmptyString
  | S n' => String sep_char (repeat_sep n')
  end.

(** The trimming of the head shared by [split] and [dirname]:
    [if head and head != sep*len(head): head = head.rstrip(sep)]. *)
Definition trim_head (head : string) : string :=
  if truthy head && negb (String.eqb head (repeat_sep (String.length head)))
  then rstrip_sep head else head.

(** [posixpath.split(p)] *)
Definition split (p : string) : string * string :=
  let i := rfind_sep1 p in
  (trim_head (slice_to i p), slice_from i p).

(** [posixpath.dirname(p)] *)
Definition dirname (p : string) : string :=
  trim_head (slice_to (rfind_sep1 p) p).

(** [posixpath.isabs(p)] *)
Definition isabs (p : string) : bool := startswith p "/".

(** The loop of [posixpath.normpath] over the components; [new_comps] is
    kept reversed, so that its head is [new_comps[-1]]. *)
Fixpoint normpath_loop (initial_slashes : nat) (comps rev_new : list string)
  : list string :=
  match comps with
  | [] => rev rev_new
  | comp :: rest =>
      if String.eqb comp "" || String.eqb comp "." then
        normpath_loop initial_slashes rest rev_new
      else if negb (String.eqb comp "..")
              || (Nat.eqb initial_slashes 0 && match rev_new with [] => true | _ => false end)
              || match rev_new with last :: _ => String.eqb last ".." | [] => false end
      then normpath_loop initial_slashes rest (comp :: rev_new)
      else match rev_new with
           | _ :: popped => normpath_loop initial_slashes rest popped
           | [] => normpath_loop initial_slashes rest rev_new
           end
  end.

(** [posixpath.normpath(path)] *)
Definition normpath (path : string) : string :=
  if negb (truthy path) then "."
  else
    let initial_slashes :=
      if startswith path "/" then
        if startswith path "//" && negb (startswith path "///") then 2 else 1
      else 0 in
    let comps := normpath_loop initial_slashes (split_sep path) [] in
    or_else (repeat_sep initial_slashes ++ join_sep comps) ".".

(** [posixpath.abspath(path)], with the process's current directory
    [cwd] ([os.getcwd()]) as a parameter. *)
Definition abspath (cwd path : string) : string :=
  if isabs path then normpath path else normpath (join cwd [path]).

End posixpath.

(** ** [pathlib.PurePosixPath] *)

Module pathlib.
Import PyStr.

(** A pure path keeps the segments it was built from; they are joined
    and parsed when the path is rendered. *)
Record PurePosixPath := mkPath { raw_paths : list string }.

(** [PurePosixPath(s)] *)
Definition of_string (s : string) : PurePosixPath := mkPath [s].

(** [p / key] *)
Definition truediv (p : PurePosixPath) (key : string) : PurePosixPath :=
  mkPath (raw_paths p ++ [key]).

(** The string that is parsed: [posixpath.join] applied to the raw segments. *)
Definition joined (p : PurePosixPath) : string :=
  match raw_paths p with
  | [] => ""
  | a :: rest => posixpath.join a rest
  end.

(** [_parse_path]: the root and the components that are neither empty
    nor ["."]. *)
Definition keep_comp (x : string) : bool :=
  truthy x && negb (String.eqb x ".").

Definition parse_path (path : string) : string * list string :=
  if negb (truthy path) then ("", [])
  else
    let '(root, rel) := posixpath.splitroot path in
    (root, filter keep_comp (split_sep rel)).

Definition root (p : PurePosixPath) : string := fst (parse_path (joined p)).
Definition tail (p : PurePosixPath) : list string := snd (parse_path (joined p)).

(** [_format_parsed_parts] followed by the [or "."] of [__str__]. *)
Definition format_parsed_parts (root : string) (tail : list string) : string :=
  root ++ join_sep tail.

(** [str(p)] *)
Definition to_str (p : PurePosixPath) : string :=
  or_else (format_parsed_parts (root p) (tail p)) ".".

End pathlib.

(** ** [illdata/sftp.py]: path joining *)

(** [_join_posix], for the non-empty argument lists of every call
    site: [first] is [parts[0]] and [rest] is [parts[1:]]. *)
Definition _join_posix (first : string) (rest : list string) : string :=
  pathlib.to_str (fold_left pathlib.truediv rest (pathlib.of_string first)).

(** The joining written out in the older client, [a + "/" + b]. *)
Module Legacy_path.
Definition join (a b : string) : string := a ++ "/" ++ b.
End Legacy_path.

(** ** Exceptions

    [IllDataError], [NotConnectedError] and [NoProposalSelectedError] are
    the classes imported from [illdata.exceptions]; the others are the
    built-in classes that the libraries and the older client raise. *)

Inductive exn : Type :=
| IllDataError (cause : exn)        (* [raise IllDataError(...) from err] *)
| NotConnectedError
| NoProposalSelectedError
| SSHException                      (* [pysftp.Connection(...)], host keys *)
| IOError (path : string)           (* a remote call of [pysftp] *)
| FileExistsError (path : string)
| FileNotFoundError (path : string)
| NotADirectoryError (path : string)
| IsADirectoryError (path : string)
| AttributeError                    (* a method looked up on [None] *)
| Exception_msg (msg : string)      (* [raise Exception("...")] *)
| Exception (cause : exn).          (* [raise Exception(err)] *)

Inductive result (A : Type) : Type :=
| Ok (a : A)
| Raise (e : exn).
Arguments Ok {A} a.
Arguments Raise {A} e.

(** ** The local file system, as [os] sees it *)

Module LocalFs.
Import PyStr.

#[local] Unset Elimination Schemes.
Inductive node : Type :=
| File (content : string)
| Dir (entries : list (string * node)).
#[local] Set Elimination Schemes.

Fixpoint get_entry (c : string) (es : list (string * node)) : option node :=
  match es with
  | [] => None
  | (k, v) :: es' => if String.eqb k c then Some v else get_entry c es'
  end.

Fixpoint set_entry (c : string) (x : node) (es : list (string * node))
  : list (string * node) :=
  match es with
  | [] => [(c, x)]
  | (k, v) :: es' =>
      if String.eqb k c then (k, x) :: es' else (k, v) :: set_entry c x es'
  end.

(** The node at a location, a list of names below the root. *)
Fixpoint lookup (n : node) (p : list string) : option node :=
  match p with
  | [] => Some n
  | c :: p' =>
      match n with
      | File _ => None
      | Dir es =>
          match get_entry c es with
          | Some ch => lookup ch p'
          | None => None
          end
      end
  end.

(** Store [x] at a location whose parent is a directory. *)
Fixpoint put (n : node) (p : list string) (x : node) : option node :=
  match p with
  | [] => Some x
  | c :: p' =>
      match n with
      | File _ => None
      | Dir es =>
          match p', get_entry c es with
          | [], _ => Some (Dir (set_entry c x es))
          | _ :: _, Some ch =>
              match put ch p' x with
              | Some ch' => Some (Dir (set_entry c ch' es))
              | None => None
              end
          | _ :: _, None => None
          end
      end
  end.

Definition is_dir_at (root : node) (p : list string) : bool :=
  match lookup root p with
  | Some (Dir _) => true
  | _ => false
  end.

(** Path resolution by the kernel: [cur] is the location reached so far,
    innermost name first.  An empty name (a doubled or trailing slash) is
    skipped; every other step starts from a directory: ["."] stays,
    [".."] goes up (the root is its own parent), a name goes down.  The
    last name need not exist. *)
Fixpoint namei (root : node) (cur : list string) (comps : list string)
  : option (list string) :=
  match comps with
  | [] => Some (rev cur)
  | c :: rest =>
      if String.eqb c "" then namei root cur rest
      else if negb (is_dir_at root (rev cur)) then None
      else if String.eqb c "." then namei root cur rest
      else if String.eqb c ".." then namei root (List.tl cur) rest
      else namei root (c :: cur) rest
  end.

(** The location a path string denotes for a process whose current
    directory is [cwd] (an absolute path); the empty path denotes
    nothing. *)
Definition resolve (root : node) (cwd path : string) : option (list string) :=
  if negb (truthy path) then None
  else if startswith path "/" then namei root [] (split_sep path)
  else namei root [] (split_sep cwd ++ split_sep path).

(** Why a path does not resolve.  The walk of [namei] stops at a
    location that is not a directory: a file there is reported as
    [ENOTDIR], a missing directory (and the empty path) as [ENOENT]. *)
Fixpoint namei_blocked (root : node) (cur : list string) (comps : list string)
  : bool :=
  match comps with
  | [] => false
  | c :: rest =>
      if String.eqb c "" then namei_blocked root cur rest
      else match lookup root (rev cur) with
           | Some (File _) => true
           | Some (Dir _) =>
               if String.eqb c "." then namei_blocked root cur rest
               else if String.eqb c ".." then
                 namei_blocked root (List.tl cur) rest
               else namei_blocked root (c :: cur) rest
           | None => false
           end
  end.

Definition resolve_error (root : node) (cwd path : string) : exn :=
  let comps :=
    if startswith path "/" then split_sep path
    else split_sep cwd ++ split_sep path in
  if truthy path && namei_blocked root [] comps
  then NotADirectoryError path else FileNotFoundError path.

(** [os.path.exists(path)] *)
Definition exists_ (root : node) (cwd path : string) : bool :=
  match resolve root cwd path with
  | Some p =>
      match lookup root p with
      | Some (Dir _) => true
      | Some (File _) => negb (endswith_sep path)
      | None => false
      end
  | None => false
  end.

(** [os.path.isdir(path)] *)
Definition isdir (root : node) (cwd path : string) : bool :=
  match resolve root cwd path with
  | Some p => is_dir_at root p
  | None => false
  end.

(** [os.mkdir(path)] *)
Definition mkdir (root : node) (cwd path : string) : result node :=
  match resolve root cwd path with
  | None => Raise (resolve_error root cwd path)
  | Some p =>
      match lookup root p with
      | Some _ => Raise (FileExistsError path)
      | None =>
          match put root p (Dir []) with
          | Some root' => Ok root'
          | None => Raise (NotADirectoryError path)
          end
      end
  end.

(** A path with a trailing slash names a directory only. *)
Definition names_dir_only (path : string) : bool := endswith_sep path.

(** [open(path, "wb")] followed by writing [data] and closing: the file
    is created or truncated. *)
Definition write_file (root : node) (cwd path data : string) : result node :=
  match resolve root cwd path with
  | None => Raise (resolve_error root cwd path)
  | Some p =>
      match lookup root p with
      | Some (Dir _) => Raise (IsADirectoryError path)
      | found =>
          if names_dir_only path then
            Raise (match found with
                   | Some _ => NotADirectoryError path
                   | None => IsADirectoryError path
                   end)
          else
          match put root p (File data) with
          | Some root' => Ok root'
          | None => Raise (NotADirectoryError path)
          end
      end
  end.

(** [open(path, "rb").read()] *)
Definition read_file (root : node) (cwd path : string) : result string :=
  match resolve root cwd path with
  | None => Raise (resolve_error root cwd path)
  | Some p =>
      match lookup root p with
      | Some (File data) =>
          if names_dir_only path then Raise (NotADirectoryError path)
          else Ok data
      | Some (Dir _) => Raise (IsADirectoryError path)
      | None => Raise (FileNotFoundError path)
      end
  end.

(** [os.makedirs(name, exist_ok=exist_ok)].  The recursion is on the
    head of [posixpath.split], which is shorter than [name]; [fuel]
    bounds its depth and [None] reports that it ran out.  The file
    system is returned also when an error is raised: the directories
    made before the error stay. *)
Fixpoint makedirs_rec (fuel : nat) (exist_ok : bool) (root : node)
  (cwd name : string) : option (result unit * node) :=
  let '(head0, tail0) := posixpath.split name in
  let '(head, tail) :=
    if negb (truthy tail0) then posixpath.split head0 else (head0, tail0) in
  let finish (root1 : node) : option (result unit * node) :=
    match mkdir root1 cwd name with
    | Ok root2 => Some (Ok tt, root2)
    | Raise e =>
        if negb exist_ok || negb (isdir root1 cwd name)
        then Some (Raise e, root1) else Some (Ok tt, root1)
    end in
  if truthy head && truthy tail && negb (exists_ root cwd head) then
    match fuel with
    | O => None
    | S fuel' =>
        match makedirs_rec fuel' exist_ok root cwd head with
        | None => None
        | Some (Raise (FileExistsError _), root1)
        | Some (Ok _, root1) =>
            if String.eqb tail "." then Some (Ok tt, root1) else finish root1
        | Some (Raise e, root1) => Some (Raise e, root1)
        end
    end
  else finish root.

(** The length of [name] is fuel enough (lemma [makedirs_rec_fuel]
    below), so the last branch is never taken. *)
Definition makedirs (exist_ok : bool) (root : node) (cwd name : string)
  : result unit * node :=
  match makedirs_rec (String.length name) exist_ok root cwd name with
  | Some r => r
  | None => (Raise (FileNotFoundError name), root)
  end.

End LocalFs.

(** ** The [pysftp] connection and the world around the client *)

(** [pysftp.SFTPAttributes], the fields a directory entry carries. *)
Record SFTPAttributes : Type := mkAttr {
  filename : string;
  st_size : Z;
  st_mtime : Z;
  st_mode : Z
}.

(** What the client cannot decide: what the calls of [pysftp] return,
    given the server and the known-hosts file.  Remote paths are the ones
    sent on the wire, after the connection's working directory has been
    applied; [None] is a call that raises.  [listdir_of] is the listing in
    the order in which [Connection.listdir_attr] returns it. *)
Record Env : Type := mkEnv {
  known_hosts_loads : string -> bool;
  accepts : string -> string -> string -> Z -> bool -> bool;
  readlink_of : string -> option string;
  listdir_of : string -> option (list SFTPAttributes);
  realdir_of : string -> option string;
  content_of : string -> option string;
  stores : string -> bool;
  close_fails : bool
}.

(** The remote calls a session issues, oldest last. *)
Inductive Event : Type :=
| EvOpen (host user : string) (port : Z) (verify : bool)
| EvReadlink (conn : nat) (path : string)
| EvChdir (conn : nat) (path : string)
| EvListdir (conn : nat) (path : string)
| EvListdirAttr (conn : nat) (path : string)
| EvGet (conn : nat) (remote local_ : string)
| EvPut (conn : nat) (local_ remote : string)
| EvClose (conn : nat).

(** The mutable world: the calls issued so far, the connection objects
    made so far (a connection is its index; [cwds] holds the working
    directory of those that have one), and the local file system with the
    process's current directory. *)
Record World : Type := mkWorld {
  log : list Event;
  opened : nat;
  cwds : list (nat * string);
  fs : LocalFs.node;
  getcwd : string
}.

Fixpoint cwd_of (c : nat) (l : list (nat * string)) : option string :=
  match l with
  | [] => None
  | (k, d) :: l' => if Nat.eqb k c then Some d else cwd_of c l'
  end.

(** [SFTPClient._adjust_cwd]: a relative path is taken below the
    connection's working directory, when it has one. *)
Definition adjust_cwd (cwd : option string) (path : string) : string :=
  match cwd with
  | None => path
  | Some d =>
      if PyStr.startswith path "/" then path
      else if String.eqb d "/" then d ++ path
      else d ++ "/" ++ path
  end.

(** ** The client object of [illdata/sftp.py] *)

Record IllSftp : Type := mkIllSftp {
  hostname : string;
  username : string;
  password : string;
  port : Z;
  known_hosts_path : option string;
  _connection : option nat;
  _home : string;
  _proposal : string;
  _propdir : string
}.

(** The dataclass constructor: [port] and [known_hosts_path] have
    defaults, the private fields are not arguments. *)
Definition new_IllSftp (host user pass : string) (prt : option Z)
  (known_hosts : option string) : IllSftp :=
  {| hostname := host; username := user; password := pass;
     port := match prt with Some n => n | None => 22%Z end;
     known_hosts_path := known_hosts;
     _connection := None; _home := ""; _proposal := ""; _propdir := "" |}.

Definition with_connection (c : option nat) (o : IllSftp) : IllSftp :=
  {| hostname := hostname o; username := username o; password := password o;
     port := port o; known_hosts_path := known_hosts_path o;
     _connection := c; _home := _home o; _proposal := _proposal o;
     _propdir := _propdir o |}.

Definition with_home (h : string) (o : IllSftp) : IllSftp :=
  {| hostname := hostname o; username := username o; password := password o;
     port := port o; known_hosts_path := known_hosts_path o;
     _connection := _connection o; _home := h; _proposal := _proposal o;
     _propdir := _propdir o |}.

Definition with_proposal (v : string) (o : IllSftp) : IllSftp :=
  {| hostname := hostname o; username := username o; password := password o;
     port := port o; known_hosts_path := known_hosts_path o;
     _connection := _connection o; _home := _home o; _proposal := v;
     _propdir := _propdir o |}.

Definition with_propdir (d : string) (o : IllSftp) : IllSftp :=
  {| hostname := hostname o; username := username o; password := password o;
     port := port o; known_hosts_path := known_hosts_path o;
     _connection := _connection o; _home := _home o; _proposal := _proposal o;
     _propdir := d |}.

Definition with_log (l : list Event) (w : World) : World :=
  {| log := l; opened := opened w; cwds := cwds w; fs := fs w;
     getcwd := getcwd w |}.

Definition with_fs (t : LocalFs.node) (w : World) : World :=
  {| log := log w; opened := opened w; cwds := cwds w; fs := t;
     getcwd := getcwd w |}.

(** ** Methods as state transformers that may raise *)

(** The state a method runs in: the client object (of class [C]) and the
    world. *)
Record State (C : Type) : Type := mkState { self : C; world : World }.
Arguments mkState {C} self world.
Arguments self {C} s.
Arguments world {C} s.

Definition M (C A : Type) : Type := State C -> result A * State C.

Definition ret {C A} (a : A) : M C A := fun s => (Ok a, s).
Definition raise {C A} (e : exn) : M C A := fun s => (Raise e, s).
Definition bind {C A B} (m : M C A) (k : A -> M C B) : M C B :=
  fun s => match m s with
           | (Ok a, s') => k a s'
           | (Raise e, s') => (Raise e, s')
           end.

Declare Scope py_scope.
Delimit Scope py_scope with py.
Notation "x <- m ;; k" := (bind m (fun x => k))
  (at level 61, m at next level, right associativity) : py_scope.
Notation "m ;; k" := (bind m (fun _ => k))
  (at level 61, right associativity) : py_scope.
Local Open Scope py_scope.

(** [try: m  except Exception as err: h err] *)
Definition try_except {C A} (m : M C A) (h : exn -> M C A) : M C A :=
  fun s => match m s with
           | (Ok a, s') => (Ok a, s')
           | (Raise e, s') => h e s'
           end.

(** [try: m  finally: f]: [f] runs on both exits, and an error of [m]
    is raised again after it. *)
Definition try_finally {C A} (m : M C A) (f : M C unit) : M C A :=
  fun s => match m s with
           | (r, s') =>
               match f s' with
               | (Ok _, s'') => (r, s'')
               | (Raise e, s'') => (Raise e, s'')
               end
           end.

Definition get_self {C} : M C C := fun s => (Ok (self s), s).
Definition modify_self {C} (f : C -> C) : M C unit :=
  fun s => (Ok tt, mkState (f (self s)) (world s)).
Definition get_world {C} : M C World := fun s => (Ok (world s), s).
Definition modify_world {C} (f : World -> World) : M C unit :=
  fun s => (Ok tt, mkState (self s) (f (world s))).
Definition emit {C} (e : Event) : M C unit :=
  modify_world (fun w => with_log (e :: log w) w).

(** The listing a call of [listdir] returns: plain names, or entries
    with their attributes. *)
Inductive Listing : Type :=
| Names (names : list string)
| Entries (entries : list SFTPAttributes).

(** The generator object that [proposals()] returns.  Its body has not
    started ([GenCreated]), is suspended at the [yield] inside the loop
    with the rest of the listing still to visit ([GenSuspended]), or has
    returned or raised ([GenFinished]). *)
Inductive ProposalsGen : Type :=
| GenCreated
| GenSuspended (remaining : list string)
| GenFinished.

(** [obj[4:] if obj.startswith("exp_") else obj] *)
Definition strip_exp (obj : string) : string :=
  if PyStr.startswith obj "exp_" then PyStr.slice_from 4 obj else obj.

Section Remote.

Variable env : Env.
Context {C : Type}.

(** *** [pysftp.Connection] *)

Definition pysftp_Connection (host user pass : string) (prt : Z)
  (verify : bool) : M C nat :=
  emit (EvOpen host user prt verify) ;;
  if accepts env host user pass prt verify then
    w <- get_world ;;
    modify_world (fun w => mkWorld (log w) (S (opened w)) (cwds w) (fs w)
                                   (getcwd w)) ;;
    ret (opened w)
  else raise SSHException.

Definition wire_path (c : nat) (path : string) : M C string :=
  w <- get_world ;; ret (adjust_cwd (cwd_of c (cwds w)) path).

Definition conn_readlink (c : nat) (path : string) : M C string :=
  q <- wire_path c path ;;
  emit (EvReadlink c q) ;;
  match readlink_of env q with
  | Some target => ret target
  | None => raise (IOError q)
  end.

Definition conn_chdir (c : nat) (path : string) : M C unit :=
  q <- wire_path c path ;;
  emit (EvChdir c q) ;;
  match realdir_of env q with
  | Some d =>
      modify_world (fun w => mkWorld (log w) (opened w) ((c, d) :: cwds w)
                                     (fs w) (getcwd w))
  | None => raise (IOError q)
  end.

Definition conn_listdir_attr (c : nat) (path : string)
  : M C (list SFTPAttributes) :=
  q <- wire_path c path ;;
  emit (EvListdirAttr c q) ;;
  match listdir_of env q with
  | Some es => ret es
  | None => raise (IOError q)
  end.

Definition conn_listdir (c : nat) (path : string) : M C (list string) :=
  q <- wire_path c path ;;
  emit (EvListdir c q) ;;
  match listdir_of env q with
  | Some es => ret (map filename es)
  | None => raise (IOError q)
  end.

(** [Connection.get(remotepath, localpath)]: an empty [localpath] stands
    for the last name of [remotepath]; the local file is opened for
    writing (created or truncated) first, and the server is asked for the
    remote one only when that succeeded. *)
Definition conn_get (c : nat) (remotepath localpath : string) : M C unit :=
  let localpath :=
    if PyStr.truthy localpath then localpath
    else snd (posixpath.split remotepath) in
  q <- wire_path c remotepath ;;
  w <- get_world ;;
  match LocalFs.write_file (fs w) (getcwd w) localpath "" with
  | Raise e => raise e
  | Ok t0 =>
      modify_world (with_fs t0) ;;
      emit (EvGet c q localpath) ;;
      match content_of env q with
      | None => raise (IOError q)
      | Some data =>
          match LocalFs.write_file t0 (getcwd w) localpath data with
          | Raise e => raise e
          | Ok t1 => modify_world (with_fs t1)
          end
      end
  end.

(** [Connection.put(localpath, remotepath)]: the local file is opened
    for reading first. *)
Definition conn_put (c : nat) (localpath remotepath : string) : M C unit :=
  q <- wire_path c remotepath ;;
  w <- get_world ;;
  match LocalFs.read_file (fs w) (getcwd w) localpath with
  | Raise e => raise e
  | Ok _ =>
      emit (EvPut c localpath q) ;;
      if stores env q then ret tt else raise (IOError q)
  end.

Definition conn_close (c : nat) : M C unit :=
  emit (EvClose c) ;;
  if close_fails env then raise SSHException else ret tt.

(** *** Local file system calls *)

Definition os_path_abspath (path : string) : M C string :=
  w <- get_world ;; ret (posixpath.abspath (getcwd w) path).

Definition os_path_isdir (path : string) : M C bool :=
  w <- get_world ;; ret (LocalFs.isdir (fs w) (getcwd w) path).

Definition os_makedirs (name : string) (exist_ok : bool) : M C unit :=
  w <- get_world ;;
  let '(r, t) := LocalFs.makedirs exist_ok (fs w) (getcwd w) name in
  modify_world (with_fs t) ;;
  match r with
  | Ok _ => ret tt
  | Raise e => raise e
  end.

End Remote.

Section Client.

Variable env : Env.

Local Abbreviation M := (M IllSftp).

(** *** Properties *)

(** [connected] *)
Definition connected (o : IllSftp) : bool :=
  match _connection o with Some _ => true | None => false end.

(** [proposal] *)
Definition proposal (o : IllSftp) : string := _proposal o.

(** *** Connection logic *)

Definition connect : M unit :=
  o <- get_self ;;
  match _connection o with
  | Some _ => ret tt
  | None =>
      try_except
        (verify <-
           match known_hosts_path o with
           | Some path =>
               if PyStr.truthy path then
                 if known_hosts_loads env path then ret true
                 else raise (FileNotFoundError path)
               else ret false
           | None => ret false
           end ;;
         c <- pysftp_Connection env (hostname o) (username o) (password o)
                                (port o) verify ;;
         modify_self (with_connection (Some c)) ;;
         h <- conn_readlink env c "MyData" ;;
         modify_self (with_home h))
        (fun err =>
           modify_self (with_connection None) ;;
           raise (IllDataError err))
  end.

Definition disconnect : M unit :=
  o <- get_self ;;
  match _connection o with
  | Some c =>
      try_finally (conn_close env c) (modify_self (with_connection None))
  | None => ret tt
  end.

(** *** Context manager *)

Definition __enter__ : M unit := connect.

(** [__exit__] swallows (and logs) what [disconnect] raises. *)
Definition __exit__ : M unit :=
  try_except disconnect (fun _ => ret tt).

(** [with IllSftp(...) as s: body]: the error of [body], if any, is
    raised again after [__exit__]. *)
Definition with_block {A} (body : M A) : M A :=
  __enter__ ;;
  try_finally body __exit__.

(** *** Internal guards *)

Definition _require_connection : M nat :=
  o <- get_self ;;
  match _connection o with
  | None => raise NotConnectedError
  | Some c => ret c
  end.

Definition _require_proposal : M unit :=
  o <- get_self ;;
  if negb (PyStr.truthy (_proposal o)) then raise NoProposalSelectedError
  else ret tt.

(** *** Public API *)

(** Calling the generator function runs none of its body. *)
Definition proposals : M ProposalsGen := ret GenCreated.

(** [next(g)]: [Ok None] is [StopIteration]. *)
Definition gen_next (g : ProposalsGen) (s : State IllSftp)
  : result (option string) * ProposalsGen * State IllSftp :=
  let resume (items : list string) (s' : State IllSftp) :=
    match items with
    | obj :: rest => (Ok (Some (strip_exp obj)), GenSuspended rest, s')
    | [] => (Ok None, GenFinished, s')
    end in
  match g with
  | GenFinished => (Ok None, GenFinished, s)
  | GenSuspended items => resume items s
  | GenCreated =>
      match (c <- _require_connection ;;
             o <- get_self ;;
             conn_listdir env c (_join_posix (_home o) ["byProposal"])) s with
      | (Raise e, s') => (Raise e, GenFinished, s')
      | (Ok items, s') => resume items s'
      end
  end.

(** [list(g)]: [next] until [StopIteration]; [None] when [fuel] calls
    of [next] did not reach it. *)
Fixpoint gen_list (fuel : nat) (g : ProposalsGen) (s : State IllSftp)
  : option (result (list string) * ProposalsGen * State IllSftp) :=
  match fuel with
  | O => None
  | S fuel' =>
      match gen_next g s with
      | (Raise e, g', s') => Some (Raise e, g', s')
      | (Ok None, g', s') => Some (Ok [], g', s')
      | (Ok (Some x), g', s') =>
          match gen_list fuel' g' s' with
          | Some (Ok xs, g'', s'') => Some (Ok (x :: xs), g'', s'')
          | other => other
          end
      end
  end.

Definition open_proposal (value : string) : M unit :=
  c <- _require_connection ;;
  modify_self (with_proposal value) ;;
  o <- get_self ;;
  conn_chdir env c (_join_posix (_home o) ["byProposal"]) ;;
  d <- conn_readlink env c ("exp_" ++ value) ;;
  modify_self (with_propdir d).

Definition listdir (remote_path : string) (with_attr : bool) : M Listing :=
  _require_connection ;;
  _require_proposal ;;
  o <- get_self ;;
  match _connection o with
  | None => raise AttributeError
  | Some c =>
      if with_attr then
        es <- conn_listdir_attr env c (_join_posix (_propdir o) [remote_path]) ;;
        ret (Entries es)
      else
        ns <- conn_listdir env c (_join_posix (_propdir o) [remote_path]) ;;
        ret (Names ns)
  end.

Definition listdir_attr (remote_path : string) : M Listing :=
  listdir remote_path true.

Definition download (remote_path local_path : string) : M unit :=
  _require_connection ;;
  _require_proposal ;;
  o <- get_self ;;
  match _connection o with
  | None => raise AttributeError
  | Some c =>
      a <- os_path_abspath local_path ;;
      let dest_dir := posixpath.dirname a in
      is_d <- (if PyStr.truthy dest_dir then os_path_isdir dest_dir
               else ret false) ;;
      (if PyStr.truthy dest_dir && negb is_d
       then os_makedirs dest_dir true else ret tt) ;;
      conn_get env c (_join_posix (_propdir o) [remote_path]) local_path
  end.

End Client.

(** ** The older client, [illdata.py] *)

Module Legacy.

(** [_home] and [_propdir] are attributes that exist only once [connect]
    and [openproposal] have assigned them: [None] is an absent
    attribute, whose reading raises [AttributeError]. *)
Record IllSftp : Type := mkIllSftp {
  connection : option nat;
  hostname : string;
  username : string;
  password : string;
  port : Z;
  _proposal : string;
  _home : option string;
  _propdir : option string
}.

Definition new_IllSftp (host user pass : string) (prt : option Z) : IllSftp :=
  {| connection := None; hostname := host; username := user;
     password := pass;
     port := match prt with Some n => n | None => 22%Z end;
     _proposal := ""; _home := None; _propdir := None |}.

Definition with_connection (c : option nat) (o : IllSftp) : IllSftp :=
  {| connection := c; hostname := hostname o; username := username o;
     password := password o; port := port o; _proposal := _proposal o;
     _home := _home o; _propdir := _propdir o |}.

Definition with_proposal (v : string) (o : IllSftp) : IllSftp :=
  {| connection := connection o; hostname := hostname o;
     username := username o; password := password o; port := port o;
     _proposal := v; _home := _home o; _propdir := _propdir o |}.

Definition with_home (h : string) (o : IllSftp) : IllSftp :=
  {| connection := connection o; hostname := hostname o;
     username := username o; password := password o; port := port o;
     _proposal := _proposal o; _home := Some h; _propdir := _propdir o |}.

Definition with_propdir (d : string) (o : IllSftp) : IllSftp :=
  {| connection := connection o; hostname := hostname o;
     username := username o; password := password o; port := port o;
     _proposal := _proposal o; _home := _home o; _propdir := Some d |}.

Section Client.

Variable env : Env.

Local Abbreviation M := (M IllSftp).

(** An attribute read, and a method looked up on [self.connection]. *)
Definition attr {A} (f : IllSftp -> option A) : M A :=
  o <- get_self ;;
  match f o with
  | Some a => ret a
  | None => raise AttributeError
  end.

(** The decorator [has_proposal]. *)
Definition has_proposal {A} (func : M A) : M A :=
  o <- get_self ;;
  if String.eqb (_proposal o) ""
  then raise (Exception_msg "There is no opened proposal, use openproposal method.")
  else func.

Definition connect : M unit :=
  try_finally
    (try_except
       (o <- get_self ;;
        c <- pysftp_Connection env (hostname o) (username o) (password o)
                               (port o) false ;;
        modify_self (with_connection (Some c)))
       (fun err => raise (Exception err)))
    (c <- attr connection ;;
     h <- conn_readlink env c "MyData" ;;
     modify_self (with_home h)).

Definition disconnect : M unit :=
  c <- attr connection ;;
  conn_close env c.

Definition listdir_body (remote_path : string) (attr_ : bool) : M Listing :=
  c <- attr connection ;;
  d <- attr _propdir ;;
  if attr_ then
    es <- conn_listdir_attr env c (Legacy_path.join d remote_path) ;;
    ret (Entries es)
  else
    ns <- conn_listdir env c (Legacy_path.join d remote_path) ;;
    ret (Names ns).

Definition listdir (remote_path : string) (attr_ : bool) : M Listing :=
  has_proposal (listdir_body remote_path attr_).

(** [obj[4:] if obj[:4] == "exp_" else obj] *)
Definition strip_exp (obj : string) : string :=
  if String.eqb (PyStr.slice_to 4 obj) "exp_" then PyStr.slice_from 4 obj
  else obj.

(** [next] on the generator of [proposals]. *)
Definition gen_next (g : ProposalsGen) (s : State IllSftp)
  : result (option string) * ProposalsGen * State IllSftp :=
  let resume (items : list string) (s' : State IllSftp) :=
    match items with
    | obj :: rest => (Ok (Some (strip_exp obj)), GenSuspended rest, s')
    | [] => (Ok None, GenFinished, s')
    end in
  match g with
  | GenFinished => (Ok None, GenFinished, s)
  | GenSuspended items => resume items s
  | GenCreated =>
      match (h <- attr _home ;;
             c <- attr connection ;;
             conn_listdir env c (Legacy_path.join h "byProposal")) s with
      | (Raise e, s') => (Raise e, GenFinished, s')
      | (Ok items, s') => resume items s'
      end
  end.

Definition openproposal (value : string) : M unit :=
  modify_self (with_proposal value) ;;
  c <- attr connection ;;
  h <- attr _home ;;
  conn_chdir env c (Legacy_path.join h "byProposal") ;;
  c <- attr connection ;;
  d <- conn_readlink env c ("exp_" ++ value) ;;
  modify_self (with_propdir d).

Definition download_body (remote_path target_local_path : string) : M unit :=
  try_except
    (let path := fst (posixpath.split target_local_path) in
     is_d <- os_path_isdir path ;;
     (if negb is_d
      then try_except (os_makedirs path false)
                      (fun err => raise (Exception err))
      else ret tt) ;;
     c <- attr connection ;;
     d <- attr _propdir ;;
     conn_get env c (Legacy_path.join d remote_path) target_local_path)
    (fun err => raise (Exception err)).

Definition download (remote_path target_local_path : string) : M unit :=
  has_proposal (download_body remote_path target_local_path).

Definition upload_body (source_local_path remote_path : string) : M unit :=
  try_except
    (c <- attr connection ;;
     d <- attr _propdir ;;
     conn_put env c source_local_path (Legacy_path.join d remote_path))
    (fun err => raise (Exception err)).

Definition upload (source_local_path remote_path : string) : M unit :=
  has_proposal (upload_body source_local_path remote_path).

End Client.

End Legacy.

(** ** Vocabulary of the statements *)

(** The root and the names of a path string, as [PurePosixPath] parses
    it. *)
Definition path_root (s : string) : string :=
  pathlib.root (pathlib.of_string s).

Definition path_parts (s : string) : list string :=
  pathlib.tail (pathlib.of_string s).

(** Does the separator occur in [s]? *)
Fixpoint has_sep (s : string) : bool :=
  match s with
  | EmptyString => false
  | String c r => Ascii.eqb c PyStr.sep_char || has_sep r
  end.

(** A name between two separators: not empty, not ["."], no separator
    inside. *)
Definition proper_name (c : string) : Prop :=
  c <> "" /\ c <> "." /\ has_sep c = false.

(** The error of the two guards of [listdir] and [download] when no
    proposal is open. *)
Definition guard_error (o : IllSftp) : exn :=
  if connected o then NoProposalSelectedError else NotConnectedError.

(** How many times the log asks the server for a link named [MyData].
    The log holds the paths as they are sent: a [readlink("MyData")]
    issued after a [chdir] is sent as the working directory followed by
    the name, so the test is on the last name of the path. *)
Definition is_home_resolution (e : Event) : bool :=
  match e with
  | EvReadlink _ path => String.eqb (snd (posixpath.split path)) "MyData"
  | _ => false
  end.

Definition home_resolutions (l : list Event) : nat :=
  List.length (filter is_home_resolution l).


(** The errors of the libraries that [connect()] catches. *)
Definition library_error (e : exn) : bool :=
  match e with
  | SSHException | IOError _ | FileNotFoundError _ => true
  | _ => false
  end.

(** The state after one more remote call was logged. *)
Definition after_call {C} (e : Event) (s : State C) : State C :=
  mkState (self s) (with_log (e :: log (world s)) (world s)).

(** The path [proposals()] lists, as sent by connection [c]. *)
Definition proposals_path (s : State IllSftp) (c : nat) : string :=
  adjust_cwd (cwd_of c (cwds (world s)))
             (_join_posix (_home (self s)) ["byProposal"]).

(** The head and the last name of [name], as [os.makedirs] computes
    them. *)
Definition makedirs_parts (name : string) : string * string :=
  let '(head0, tail0) := posixpath.split name in
  if negb (PyStr.truthy tail0) then posixpath.split head0 else (head0, tail0).

(** The last step of [os.makedirs]: [mkdir], whose error is passed over
    when [exist_ok] is set and the directory is there. *)
Definition finish_mkdir (exist_ok : bool) (cwd name : string)
  (root1 : LocalFs.node) : option (result unit * LocalFs.node) :=
  match LocalFs.mkdir root1 cwd name with
  | Ok root2 => Some (Ok tt, root2)
  | Raise e =>
      if negb exist_ok || negb (LocalFs.isdir root1 cwd name)
      then Some (Raise e, root1) else Some (Ok tt, root1)
  end.

(** No segment of the path is ["."] or [".."]. *)
Definition plain_path (s : string) : Prop :=
  forall c, In c (PyStr.split_sep s) -> c <> "." /\ c <> "..".

(** A name that [posixpath.normpath] keeps in an absolute path. *)
Definition good_name (c : string) : Prop :=
  c <> "" /\ c <> "." /\ c <> ".." /\ has_sep c = false.











(** *** A small server and workstation to run the client on *)

Module Demo.

Definition entry (name : string) : SFTPAttributes := mkAttr name 0 0 0.

Definition env : Env :=
  {| known_hosts_loads := fun _ => true;
     accepts := fun _ _ pass _ _ => String.eqb pass "secret";
     readlink_of := fun p =>
       if String.eqb p "MyData" then Some "/users/u"
       else if String.eqb p "/users/u/byProposal/exp_12345"
       then Some "/data/exp_12345"
       else None;
     listdir_of := fun p =>
       if String.eqb p "/users/u/byProposal"
       then Some [entry "exp_12345"; entry "sandbox"; entry "exp_99"]
       else if String.eqb p "/data/exp_12345" then Some [entry "f.dat"]
       else None;
     realdir_of := fun p =>
       if String.eqb p "/users/u/byProposal" then Some p else None;
     content_of := fun p =>
       if String.eqb p "/data/exp_12345/f.dat" then Some "abc" else None;
     stores := fun _ => true;
     close_fails := false |}.

(** The same server, whose connections fail to close. *)
Definition env_close_fails : Env :=
  {| known_hosts_loads := known_hosts_loads env;
     accepts := accepts env;
     readlink_of := readlink_of env;
     listdir_of := listdir_of env;
     realdir_of := realdir_of env;
     content_of := content_of env;
     stores := stores env;
     close_fails := true |}.

Definition disk : LocalFs.node :=
  LocalFs.Dir [("home", LocalFs.Dir [("u", LocalFs.Dir [])])].

Definition world0 : World :=
  {| log := []; opened := 0; cwds := []; fs := disk; getcwd := "/home/u" |}.

(** A client that has not been connected yet. *)
Definition fresh : State IllSftp :=
  mkState (new_IllSftp "sftp.ill.eu" "u" "secret" None None) world0.

(** A client with a wrong password. *)
Definition intruder : State IllSftp :=
  mkState (new_IllSftp "sftp.ill.eu" "u" "guess" None None) world0.

(** The client after [connect()], and after [open_proposal("12345")]. *)
Definition connected_ : State IllSftp := snd (connect env fresh).

Definition opened_ : State IllSftp :=
  snd (open_proposal env "12345" connected_).

Definition legacy_fresh : State Legacy.IllSftp :=
  mkState (Legacy.new_IllSftp "sftp.ill.eu" "u" "secret" None) world0.

End Demo.

(** ** Vocabulary of the further properties *)

(** Whether [connect()] asks for the host key to be verified. *)
Definition verifies_host_key (o : IllSftp) : bool :=
  match known_hosts_path o with
  | Some path => PyStr.truthy path
  | None => false
  end.

(** The roots that [PurePosixPath] knows. *)
Definition valid_root (r : string) : Prop := r = "" \/ r = "/" \/ r = "//".

(** What [listdir] returns for the wire path [q] on connection [c]. *)
Definition listing_result (env : Env) (c : nat) (q : string) (with_attr : bool)
  (s : State IllSftp) : result Listing * State IllSftp :=
  (match listdir_of env q with
   | Some es => Ok (if with_attr then Entries es else Names (map filename es))
   | None => Raise (IOError q)
   end,
   after_call (if with_attr then EvListdirAttr c q else EvListdir c q) s).

(** Is the error one of the two plain [Exception]s of the older client? *)
Definition plain_exception (e : exn) : bool :=
  match e with
  | Exception_msg _ | Exception _ => true
  | _ => false
  end.

(** Clients of the older class on the server of [Demo]. *)
Module DemoLegacy.

Definition intruder : State Legacy.IllSftp :=
  mkState (Legacy.new_IllSftp "sftp.ill.eu" "u" "guess" None) Demo.world0.

Definition opened_ : State Legacy.IllSftp :=
  snd (Legacy.openproposal Demo.env "12345"
         (snd (Legacy.connect Demo.env Demo.legacy_fresh))).

End DemoLegacy.

(** * Properties *)

Ltac py_unfold :=
  unfold listdir, listdir_attr, download, open_proposal, connect, disconnect,
    __exit__, __enter__, proposals, _require_connection, _require_proposal,
    conn_readlink, conn_chdir, conn_listdir, conn_listdir_attr, conn_close,
    pysftp_Connection, wire_path, emit, os_path_abspath, os_path_isdir,
    try_finally, try_except, bind, ret, raise, get_self, get_world,
    modify_self, modify_world in *.

(** ** Strings *)

Lemma truthy_false_iff s : PyStr.truthy s = false <-> s = "".
Proof. destruct s; simpl; split; congruence. Qed.

Lemma truthy_true_iff s : PyStr.truthy s = true <-> s <> "".
Proof. destruct s; simpl; split; congruence. Qed.

(** ** Path joining *)

Section PathJoining.
Import PyStr.

Lemma split_sep_not_nil s : split_sep s <> [].
Proof.
  destruct s as [|c r]; simpl; [discriminate|].
  destruct (Ascii.eqb c sep_char); [discriminate|].
  destruct (split_sep r); discriminate.
Qed.

Lemma split_sep_app_sep x : forall y,
  split_sep (x ++ String "/" y) = split_sep x ++ split_sep y.
Proof.
  induction x as [|c x IH]; intros y; simpl.
  - reflexivity.
  - rewrite IH. destruct (Ascii.eqb c sep_char); [reflexivity|].
    destruct (split_sep x) eqn:E; [|reflexivity].
    exfalso. apply (split_sep_not_nil x E).
Qed.

Lemma split_sep_no_sep s : Forall (fun c => has_sep c = false) (split_sep s).
Proof.
  induction s as [|c r IH]; simpl.
  - repeat constructor.
  - destruct (Ascii.eqb c sep_char) eqn:Ec.
    + constructor; [reflexivity|exact IH].
    + destruct (split_sep r) as [|h t]; inversion IH; subst;
        constructor; simpl; try rewrite Ec; auto.
Qed.

Lemma endswith_sep_snoc r : endswith_sep r = true -> exists x, r = (x ++ "/")%string.
Proof.
  induction r as [|c r IH]; simpl; [discriminate|].
  destruct r as [|d r'].
  - intros H. apply Ascii.eqb_eq in H. subst. exists "". reflexivity.
  - intros H. destruct (IH H) as [x Hx]. exists (String c x).
    simpl. rewrite <- Hx. reflexivity.
Qed.

Lemma parts_app_sep r b :
  filter pathlib.keep_comp (split_sep (r ++ "/" ++ b))
  = filter pathlib.keep_comp (split_sep r) ++ filter pathlib.keep_comp (split_sep b).
Proof.
  change ("/" ++ b)%string with (String "/" b).
  rewrite split_sep_app_sep. apply filter_app.
Qed.

Lemma append_empty_r (s : string) : (s ++ "")%string = s.
Proof. induction s; simpl; congruence. Qed.

Lemma append_assoc (a b c : string) :
  ((a ++ b) ++ c)%string = (a ++ (b ++ c))%string.
Proof. induction a; simpl; congruence. Qed.

Lemma parts_app_closed r b :
  r = "" \/ endswith_sep r = true ->
  filter pathlib.keep_comp (split_sep (r ++ b))
  = filter pathlib.keep_comp (split_sep r) ++ filter pathlib.keep_comp (split_sep b).
Proof.
  intros [->|H].
  - reflexivity.
  - destruct (endswith_sep_snoc r H) as [x ->].
    rewrite append_assoc. rewrite parts_app_sep.
    replace (x ++ "/")%string with (x ++ "/" ++ "")%string by reflexivity.
    rewrite parts_app_sep. simpl. rewrite app_nil_r. reflexivity.
Qed.

Lemma endswith_sep_tail c r :
  endswith_sep (String c r) = true -> r = "" \/ endswith_sep r = true.
Proof. destruct r; simpl; auto. Qed.

Lemma endswith_sep_tail_false c d r :
  endswith_sep (String c (String d r)) = endswith_sep (String d r).
Proof. reflexivity. Qed.

Lemma one_char_eqb c : String.eqb (String c "") "/" = Ascii.eqb c "/".
Proof. simpl. destruct (Ascii.eqb c "/"); reflexivity. Qed.

Lemma splitroot_app (a t : string) :
  a <> "" ->
  endswith_sep a = false \/ startswith t "/" = false ->
  posixpath.splitroot (a ++ t)
  = (fst (posixpath.splitroot a), (snd (posixpath.splitroot a) ++ t)%string).
Proof.
  intros Ha H. unfold posixpath.splitroot.
  destruct a as [|c1 a1]; [congruence|]. clear Ha.
  cbn [append slice_to slice_from]. rewrite !one_char_eqb.
  destruct (Ascii.eqb c1 "/") eqn:E1; cbn [negb fst snd]; [|reflexivity].
  destruct a1 as [|c2 a2].
  - cbn [append slice_to slice_from endswith_sep] in *. unfold sep_char in H.
    rewrite E1 in H.
    destruct H as [H|H]; [discriminate|].
    destruct t as [|d t]; [reflexivity|].
    cbn [startswith] in H. cbn [slice_to slice_from]. rewrite one_char_eqb.
    destruct (Ascii.eqb d "/"); [discriminate|reflexivity].
  - cbn [append slice_to slice_from]. rewrite !one_char_eqb.
    destruct (Ascii.eqb c2 "/") eqn:E2; cbn [negb orb fst snd]; [|reflexivity].
    destruct a2 as [|c3 a3].
    + cbn [append slice_to slice_from endswith_sep] in *.
      unfold sep_char in H. rewrite E2 in H.
      destruct H as [H|H]; [discriminate|].
      destruct t as [|d t]; [reflexivity|].
      cbn [startswith] in H. cbn [slice_to slice_from]. rewrite one_char_eqb.
      destruct (Ascii.eqb d "/"); [discriminate|reflexivity].
    + cbn [append slice_to slice_from]. rewrite !one_char_eqb.
      destruct (Ascii.eqb c3 "/"); reflexivity.
Qed.

Lemma parse_path_relative b :
  startswith b "/" = false ->
  pathlib.parse_path b = ("", filter pathlib.keep_comp (split_sep b)).
Proof.
  intros H. unfold pathlib.parse_path, posixpath.splitroot.
  destruct b as [|d b]; [reflexivity|].
  cbn [startswith] in H. cbn [truthy negb slice_to]. rewrite one_char_eqb.
  destruct (Ascii.eqb d "/"); [discriminate|reflexivity].
Qed.

Lemma splitroot_rel_closed a :
  endswith_sep a = true ->
  snd (posixpath.splitroot a) = "" \/
  endswith_sep (snd (posixpath.splitroot a)) = true.
Proof.
  intros H. unfold posixpath.splitroot.
  destruct a as [|c1 a1]; [discriminate|].
  cbn [slice_to slice_from]. rewrite one_char_eqb.
  destruct (Ascii.eqb c1 "/"); cbn [negb snd]; [|auto].
  destruct a1 as [|c2 a2]; [left; reflexivity|].
  cbn [slice_to slice_from]. rewrite one_char_eqb.
  change (endswith_sep (String c1 (String c2 a2)))
    with (endswith_sep (String c2 a2)) in H.
  destruct (Ascii.eqb c2 "/"); cbn [negb orb snd]; [|auto].
  destruct a2 as [|c3 a3]; [left; reflexivity|].
  change (endswith_sep (String c2 (String c3 a3)))
    with (endswith_sep (String c3 a3)) in H.
  cbn [slice_to]. rewrite one_char_eqb.
  destruct (Ascii.eqb c3 "/"); cbn [snd]; auto.
Qed.

Lemma truthy_app (a t : string) : a <> "" -> truthy (a ++ t) = true.
Proof. destruct a; simpl; congruence. Qed.

Lemma parse_path_truthy a :
  truthy a = true ->
  pathlib.parse_path a
  = (fst (posixpath.splitroot a),
     filter pathlib.keep_comp (split_sep (snd (posixpath.splitroot a)))).
Proof.
  intros H. unfold pathlib.parse_path. rewrite H. cbn [negb].
  destruct (posixpath.splitroot a). reflexivity.
Qed.

Lemma path_root_parts a : pathlib.parse_path a = (path_root a, path_parts a).
Proof.
  unfold path_root, path_parts, pathlib.root, pathlib.tail, pathlib.joined,
    pathlib.of_string, posixpath.join. cbn [pathlib.raw_paths fold_left].
  destruct (pathlib.parse_path a). reflexivity.
Qed.

Lemma join_posix_parts a b :
  startswith b "/" = false ->
  pathlib.parse_path (posixpath.join_step a b)
  = (path_root a, path_parts a ++ path_parts b).
Proof.
  intros Hb.
  pose proof (path_root_parts a) as Pa.
  pose proof (path_root_parts b) as Pb.
  rewrite (parse_path_relative b Hb) in Pb.
  injection Pb as _ Pb. rewrite <- Pb. clear Pb.
  unfold posixpath.join_step. rewrite Hb.
  destruct (truthy a) eqn:Ht.
  - assert (Hne : a <> "") by (apply truthy_true_iff; exact Ht).
    rewrite (parse_path_truthy a Ht) in Pa.
    injection Pa as Pr Pp. rewrite <- Pr, <- Pp. clear Pr Pp.
    cbn [negb orb].
    destruct (endswith_sep a) eqn:Ee.
    + rewrite parse_path_truthy by (apply truthy_app; exact Hne).
      rewrite splitroot_app by auto. cbn [fst snd].
      f_equal. apply parts_app_closed. apply splitroot_rel_closed. exact Ee.
    + rewrite parse_path_truthy by (apply truthy_app; exact Hne).
      rewrite splitroot_app by auto. cbn [fst snd].
      f_equal. apply parts_app_sep.
  - apply truthy_false_iff in Ht. subst a. clear Pa.
    change (path_root "") with "". change (path_parts "") with (@nil string).
    cbn [negb orb append app]. apply parse_path_relative. exact Hb.
Qed.

Lemma keep_comp_proper c :
  pathlib.keep_comp c = true -> has_sep c = false -> proper_name c.
Proof.
  unfold pathlib.keep_comp, proper_name. intros H Hs.
  apply andb_true_iff in H. destruct H as [H1 H2].
  apply truthy_true_iff in H1. apply negb_true_iff in H2.
  apply String.eqb_neq in H2. auto.
Qed.

Lemma filter_split_proper s :
  Forall proper_name (filter pathlib.keep_comp (split_sep s)).
Proof.
  apply Forall_forall. intros c Hc. apply filter_In in Hc.
  destruct Hc as [Hin Hk]. apply keep_comp_proper; [assumption|].
  pose proof (split_sep_no_sep s) as H.
  rewrite Forall_forall in H. apply H. assumption.
Qed.

Lemma path_parts_proper s : Forall proper_name (path_parts s).
Proof.
  unfold path_parts, pathlib.tail, pathlib.joined, pathlib.of_string,
    posixpath.join, pathlib.parse_path. simpl.
  destruct (truthy s); simpl; [|constructor].
  destruct (posixpath.splitroot s). simpl. apply filter_split_proper.
Qed.

(** A second segment that begins with a separator replaces the first. *)
Lemma join_posix_absolute a b :
  startswith b "/" = true -> _join_posix a [b] = _join_posix b [].
Proof.
  intros H. unfold _join_posix, pathlib.to_str, pathlib.root, pathlib.tail,
    pathlib.joined, pathlib.truediv, pathlib.of_string, posixpath.join.
  simpl. unfold posixpath.join_step. rewrite H. reflexivity.
Qed.

(** C2 (amended). When the second segment does not begin with a
    separator, [_join_posix] renders the root of the first segment
    followed by the names of the first and then of the second segment,
    with one separator between two names; a name is never empty, never
    ["."] and holds no separator, so that doubled and trailing separators
    of the inputs leave no trace. *)
Theorem join_posix_normalizes a b :
  startswith b "/" = false ->
  _join_posix a [b]
  = or_else (path_root a ++ join_sep (path_parts a ++ path_parts b)) "." /\
  Forall proper_name (path_parts a ++ path_parts b).
Proof.
  intros Hb. split.
  - unfold _join_posix, pathlib.to_str, pathlib.format_parsed_parts,
      pathlib.root, pathlib.tail.
    change (pathlib.joined (fold_left pathlib.truediv [b] (pathlib.of_string a)))
      with (posixpath.join_step a b).
    rewrite (join_posix_parts a b Hb). reflexivity.
  - apply Forall_app. split; apply path_parts_proper.
Qed.

Lemma join_posix_normalizes_witness :
  _join_posix "a/b/" ["c"] = "a/b/c" /\
  Forall proper_name (path_parts "a/b/" ++ path_parts "c").
Proof. exact (join_posix_normalizes "a/b/" "c" eq_refl). Defined.

Example join_posix_examples :
  _join_posix "a/b" ["c"] = "a/b/c" /\
  _join_posix "a/b//" ["c/"] = "a/b/c" /\
  _join_posix "/users/u" ["byProposal"] = "/users/u/byProposal" /\
  _join_posix "/data/exp_12345" ["."] = "/data/exp_12345" /\
  _join_posix "" ["."] = ".".
Proof. repeat split; reflexivity. Qed.

(** C2, as stated, fails on its own example: the second segment begins
    with a separator and replaces the first.  The older client
    concatenates, and triples the separator. *)
Lemma join_posix_leading_slash_counterexample :
  _join_posix "a/b/" ["/c"] = "/c" /\
  _join_posix "a/b/" ["/c"] <> "a/b/c" /\
  Legacy_path.join "a/b/" "/c" = "a/b///c".
Proof. repeat split; try reflexivity. vm_compute. discriminate. Qed.

End PathJoining.

(** ** The state machine *)

Lemma connected_true_iff (o : IllSftp) :
  connected o = true <-> exists c, _connection o = Some c.
Proof.
  unfold connected. destruct (_connection o); split; intros H;
    try discriminate; eauto. destruct H; discriminate.
Qed.

Lemma connected_false_iff (o : IllSftp) :
  connected o = false <-> _connection o = None.
Proof. unfold connected. destruct (_connection o); split; congruence. Qed.

Lemma connect_returns_early env (s : State IllSftp) c :
  _connection (self s) = Some c -> connect env s = (Ok tt, s).
Proof. intros H. py_unfold. simpl. rewrite H. reflexivity. Qed.

(** C10. [connect()] on a connected client returns at once: the client
    object (its connection, home directory and proposal selection) and the
    world (the log of remote calls, the number of connections made) are
    the ones before the call. *)
Theorem connect_connected_noop env (s : State IllSftp) c :
  _connection (self s) = Some c -> connect env s = (Ok tt, s).
Proof. apply connect_returns_early. Qed.

Lemma connect_connected_noop_witness :
  connect Demo.env Demo.connected_ = (Ok tt, Demo.connected_).
Proof.
  apply (connect_connected_noop Demo.env Demo.connected_ 0). reflexivity.
Defined.

Ltac connect_cases env s :=
  destruct (known_hosts_path (self s)) as [path|]; simpl;
  [ destruct (PyStr.truthy path); simpl;
    [ destruct (known_hosts_loads env path); simpl | ] | ].

Ltac failed_run :=
  let H := fresh in
  intros H; inversion H; subst; clear H; simpl; eauto 10.

(** C6. A [connect()] that fails, fails with [IllDataError] (the client's
    error class) carrying the error of the library as its cause, and
    leaves the client disconnected, its cached home directory and
    selection untouched; a server that refuses the credentials makes it
    fail so. *)
Theorem connect_failure env (s : State IllSftp) :
  _connection (self s) = None ->
  ((forall v, accepts env (hostname (self s)) (username (self s))
                      (password (self s)) (port (self s)) v = false) ->
   exists cause s', connect env s = (Raise (IllDataError cause), s')) /\
  (forall e s', connect env s = (Raise e, s') ->
     (exists cause, e = IllDataError cause /\ library_error cause = true) /\
     connected (self s') = false /\
     _home (self s') = _home (self s) /\
     _proposal (self s') = _proposal (self s) /\
     _propdir (self s') = _propdir (self s)).
Proof.
  intros Hc. split.
  - intros Hrefuse. py_unfold. simpl. rewrite Hc.
    connect_cases env s; try (rewrite Hrefuse; simpl); eauto.
  - intros e s'. py_unfold. simpl. rewrite Hc.
    connect_cases env s;
      try (destruct (accepts env _ _ _ _ _); simpl;
           [ destruct (readlink_of env _); simpl | ]);
      failed_run.
Qed.

Lemma connect_failure_witness :
  exists cause s',
    connect Demo.env Demo.intruder = (Raise (IllDataError cause), s').
Proof.
  apply (connect_failure Demo.env Demo.intruder eq_refl).
  intros v. reflexivity.
Defined.

Example connect_wrong_password :
  fst (connect Demo.env Demo.intruder) = Raise (IllDataError SSHException) /\
  connected (self (snd (connect Demo.env Demo.intruder))) = false.
Proof. split; reflexivity. Qed.

(** A failure of the [MyData] link after the connection was made is
    wrapped in the same way. *)
Lemma connect_home_failure env (s : State IllSftp) :
  _connection (self s) = None ->
  known_hosts_path (self s) = None ->
  accepts env (hostname (self s)) (username (self s)) (password (self s))
          (port (self s)) false = true ->
  readlink_of env (adjust_cwd (cwd_of (opened (world s)) (cwds (world s)))
                              "MyData") = None ->
  exists q s', connect env s = (Raise (IllDataError (IOError q)), s') /\
               connected (self s') = false.
Proof.
  intros Hc Hk Ha Hr. py_unfold. simpl. rewrite Hc, Hk. simpl.
  rewrite Ha. simpl. rewrite Hr. simpl. eauto.
Qed.

(** C4 (amended). With no proposal open, [listdir] and [download] fail
    at their guards and change nothing: with [NoProposalSelectedError] on
    a connected client, but with [NotConnectedError] on a disconnected
    one, whose guard comes first.  [upload] exists in the older client
    only, where the guard of the decorator comes before any use of the
    connection and raises a plain [Exception], whatever the connection
    state; so do its [listdir] and [download]. *)
Theorem guards_without_proposal env (s : State IllSftp)
  (ls : State Legacy.IllSftp) remote_path with_attr local_path :
  _proposal (self s) = "" ->
  Legacy._proposal (self ls) = "" ->
  listdir env remote_path with_attr s = (Raise (guard_error (self s)), s) /\
  download env remote_path local_path s = (Raise (guard_error (self s)), s) /\
  (exists msg,
     Legacy.upload env local_path remote_path ls = (Raise (Exception_msg msg), ls) /\
     Legacy.listdir env remote_path with_attr ls = (Raise (Exception_msg msg), ls) /\
     Legacy.download env remote_path local_path ls = (Raise (Exception_msg msg), ls)).
Proof.
  intros H HL. unfold guard_error, connected.
  repeat split.
  - py_unfold. simpl.
    destruct (_connection (self s)); simpl; [rewrite H|]; reflexivity.
  - py_unfold. simpl.
    destruct (_connection (self s)); simpl; [rewrite H|]; reflexivity.
  - eexists. unfold Legacy.upload, Legacy.listdir, Legacy.download,
      Legacy.has_proposal. py_unfold. simpl. rewrite HL. simpl.
    repeat split; reflexivity.
Qed.

Lemma guards_without_proposal_witness :
  listdir Demo.env "." false Demo.connected_
    = (Raise NoProposalSelectedError, Demo.connected_).
Proof.
  apply (guards_without_proposal Demo.env Demo.connected_ Demo.legacy_fresh
           "." false "f.dat" eq_refl eq_refl).
Defined.

(** C4, as stated, fails on a client that was never connected: the error
    is [NotConnectedError]. *)
Lemma listdir_disconnected_counterexample :
  _proposal (self Demo.fresh) = "" /\
  listdir Demo.env "." false Demo.fresh = (Raise NotConnectedError, Demo.fresh) /\
  download Demo.env "f.dat" "f.dat" Demo.fresh
    = (Raise NotConnectedError, Demo.fresh) /\
  fst (listdir Demo.env "." false Demo.fresh) <> Raise NoProposalSelectedError.
Proof. repeat split; try reflexivity. simpl. discriminate. Qed.

(** C3 (amended). After [disconnect()] the client is disconnected, also
    when closing the connection raised; the call on a disconnected client
    changes nothing and does not raise, so a second call in a row is a
    no-op.  The home directory and the selection are the ones before the
    call.  The call raises exactly when the client was connected and the
    close fails; leaving a [with] block swallows that error. *)
Theorem disconnect_contract env (s : State IllSftp) :
  connected (self (snd (disconnect env s))) = false /\
  _home (self (snd (disconnect env s))) = _home (self s) /\
  proposal (self (snd (disconnect env s))) = proposal (self s) /\
  _propdir (self (snd (disconnect env s))) = _propdir (self s) /\
  (connected (self s) = false -> disconnect env s = (Ok tt, s)) /\
  (fst (disconnect env s) =
     if connected (self s) && close_fails env then Raise SSHException
     else Ok tt) /\
  disconnect env (snd (disconnect env s)) = (Ok tt, snd (disconnect env s)) /\
  fst (__exit__ env s) = Ok tt /\
  connected (self (snd (__exit__ env s))) = false.
Proof.
  unfold connected, proposal, __exit__. py_unfold. simpl.
  destruct (_connection (self s)) eqn:E; simpl.
  - destruct (close_fails env) eqn:F; simpl; repeat split; auto;
      intros; discriminate.
  - rewrite E. repeat split; auto.
Qed.

(** C3, as stated, fails on a client with an open proposal: the selection
    survives the call; and where the close fails the call raises. *)
Lemma disconnect_keeps_selection_counterexample :
  proposal (self Demo.opened_) = "12345" /\
  proposal (self (snd (disconnect Demo.env Demo.opened_))) = "12345" /\
  _home (self (snd (disconnect Demo.env Demo.opened_))) = "/users/u" /\
  _propdir (self (snd (disconnect Demo.env Demo.opened_))) = "/data/exp_12345" /\
  fst (disconnect Demo.env_close_fails Demo.opened_) = Raise SSHException.
Proof. repeat split; reflexivity. Qed.

(** Past the connection guard, a failing [open_proposal] has already
    stored the new id, and the directory is the old one. *)
Lemma open_proposal_failure env (s s' : State IllSftp) value e c :
  _connection (self s) = Some c ->
  open_proposal env value s = (Raise e, s') ->
  proposal (self s') = value /\ _propdir (self s') = _propdir (self s).
Proof.
  intros Hc. unfold proposal. py_unfold. simpl. rewrite Hc. simpl.
  destruct (realdir_of env _); simpl;
    [ destruct (readlink_of env _); simpl | ]; failed_run.
Qed.

(** On a disconnected client the guard fails first and nothing changes. *)
Lemma open_proposal_disconnected env (s : State IllSftp) value :
  _connection (self s) = None ->
  open_proposal env value s = (Raise NotConnectedError, s).
Proof. intros Hc. py_unfold. simpl. rewrite Hc. reflexivity. Qed.

(** C1 (the code misses it). With proposal 12345 open, opening proposal
    999, whose link the server does not have, raises; afterwards the
    client reports 999 and still holds the directory of 12345, and
    [listdir] lists that directory. *)
Theorem open_proposal_not_atomic :
  proposal (self Demo.opened_) = "12345" /\
  _propdir (self Demo.opened_) = "/data/exp_12345" /\
  fst (open_proposal Demo.env "999" Demo.opened_)
    = Raise (IOError "/users/u/byProposal/exp_999") /\
  proposal (self (snd (open_proposal Demo.env "999" Demo.opened_))) = "999" /\
  _propdir (self (snd (open_proposal Demo.env "999" Demo.opened_)))
    = "/data/exp_12345" /\
  fst (listdir Demo.env "." false
         (snd (open_proposal Demo.env "999" Demo.opened_)))
    = Ok (Names ["f.dat"]).
Proof. repeat split; reflexivity. Qed.

(** The same from a client with no proposal open: the id is set and the
    directory is the empty string, yet the guard of [listdir] passes. *)
Example open_proposal_first_failure :
  fst (open_proposal Demo.env "999" Demo.connected_)
    = Raise (IOError "/users/u/byProposal/exp_999") /\
  proposal (self (snd (open_proposal Demo.env "999" Demo.connected_))) = "999" /\
  _propdir (self (snd (open_proposal Demo.env "999" Demo.connected_))) = "" /\
  fst (listdir Demo.env "." false
         (snd (open_proposal Demo.env "999" Demo.connected_)))
    <> Raise NoProposalSelectedError.
Proof. repeat split; try reflexivity. vm_compute. discriminate. Qed.

(** ** The listing of proposals *)

Lemma strip_exp_prefixed r : strip_exp ("exp_" ++ r) = r.
Proof.
  unfold strip_exp. simpl. reflexivity.
Qed.

Lemma strip_exp_other obj :
  PyStr.startswith obj "exp_" = false -> strip_exp obj = obj.
Proof. unfold strip_exp. intros ->. reflexivity. Qed.

Lemma startswith_slice p : forall s,
  PyStr.startswith s p = String.eqb (PyStr.slice_to (String.length p) s) p.
Proof.
  induction p as [|b p IH]; intros s; simpl.
  - reflexivity.
  - destruct s as [|a s]; simpl; [reflexivity|].
    rewrite IH. destruct (Ascii.eqb a b); reflexivity.
Qed.

(** The older client tests [obj[:4] == "exp_"]: the same function. *)
Lemma legacy_strip_exp obj : Legacy.strip_exp obj = strip_exp obj.
Proof.
  unfold Legacy.strip_exp, strip_exp.
  rewrite (startswith_slice "exp_"). reflexivity.
Qed.

Lemma gen_list_suspended env items : forall fuel s,
  List.length items < fuel ->
  gen_list env fuel (GenSuspended items) s
  = Some (Ok (map strip_exp items), GenFinished, s).
Proof.
  induction items as [|x items IH]; intros fuel s Hf;
    (destruct fuel as [|fuel]; [lia|]); simpl.
  - reflexivity.
  - rewrite IH by (simpl in Hf; lia). reflexivity.
Qed.

Lemma gen_next_created env (s : State IllSftp) c entries :
  _connection (self s) = Some c ->
  listdir_of env (proposals_path s c) = Some entries ->
  gen_next env GenCreated s
  = match map filename entries with
    | obj :: rest =>
        (Ok (Some (strip_exp obj)), GenSuspended rest,
         after_call (EvListdir c (proposals_path s c)) s)
    | [] =>
        (Ok None, GenFinished, after_call (EvListdir c (proposals_path s c)) s)
    end.
Proof.
  intros Hc Hl. unfold gen_next, proposals_path in *. py_unfold. simpl.
  rewrite Hc. simpl. rewrite Hl. simpl. reflexivity.
Qed.

Lemma gen_list_created env (s : State IllSftp) c entries fuel :
  _connection (self s) = Some c ->
  listdir_of env (proposals_path s c) = Some entries ->
  List.length entries < fuel ->
  gen_list env fuel GenCreated s
  = Some (Ok (map strip_exp (map filename entries)), GenFinished,
          after_call (EvListdir c (proposals_path s c)) s).
Proof.
  intros Hc Hl Hf. destruct fuel as [|fuel]; [lia|].
  cbn [gen_list]. rewrite (gen_next_created env s c entries Hc Hl).
  destruct entries as [|e es]; simpl.
  - reflexivity.
  - rewrite gen_list_suspended by (simpl in Hf; rewrite length_map; lia).
    reflexivity.
Qed.

(** C7. Whatever names the server lists under [<home>/byProposal],
    reading the generator of [proposals()] to its end yields, in the same
    order, each name with a leading [exp_] removed when it has one and
    unchanged when it has none. *)
Theorem proposals_strip_prefix env (s : State IllSftp) c entries :
  _connection (self s) = Some c ->
  listdir_of env (proposals_path s c) = Some entries ->
  (exists s',
     gen_list env (S (List.length entries)) GenCreated s
     = Some (Ok (map strip_exp (map filename entries)), GenFinished, s')) /\
  (forall r, strip_exp ("exp_" ++ r) = r) /\
  (forall obj, PyStr.startswith obj "exp_" = false -> strip_exp obj = obj).
Proof.
  intros Hc Hl. split; [|split].
  - eexists. apply (gen_list_created env s c entries); auto.
  - apply strip_exp_prefixed.
  - apply strip_exp_other.
Qed.

(** The server of the example lists [exp_12345], [sandbox], [exp_99]. *)
Lemma proposals_strip_prefix_witness :
  exists s',
    gen_list Demo.env 4 GenCreated Demo.connected_
    = Some (Ok ["12345"; "sandbox"; "99"], GenFinished, s').
Proof.
  exact (proj1 (proposals_strip_prefix Demo.env Demo.connected_ 0
                  [Demo.entry "exp_12345"; Demo.entry "sandbox";
                   Demo.entry "exp_99"] eq_refl eq_refl)).
Defined.

(** C5 (amended). The call [proposals()] never fails and issues no
    remote call: it returns a generator.  The first [next] on it raises
    [NotConnectedError] when the client is disconnected at that time.
    When it is connected and the listing succeeds, the first [next]
    issues the one listing and yields the first id; the generator ends
    after as many ids as the listing has names; and a generator made by
    another call issues the listing again. *)
Theorem proposals_lazy env (s : State IllSftp) :
  proposals s = (Ok GenCreated, s) /\
  (_connection (self s) = None ->
   gen_next env GenCreated s = (Raise NotConnectedError, GenFinished, s)) /\
  (forall c entries,
     _connection (self s) = Some c ->
     listdir_of env (proposals_path s c) = Some entries ->
     let call := EvListdir c (proposals_path s c) in
     let s1 := after_call call s in
     gen_next env GenCreated s
     = match map filename entries with
       | obj :: rest => (Ok (Some (strip_exp obj)), GenSuspended rest, s1)
       | [] => (Ok None, GenFinished, s1)
       end /\
     (forall fuel, List.length entries < fuel ->
        gen_list env fuel GenCreated s
        = Some (Ok (map strip_exp (map filename entries)), GenFinished, s1)) /\
     (forall fuel, List.length entries < fuel ->
        gen_list env fuel GenCreated s1
        = Some (Ok (map strip_exp (map filename entries)), GenFinished,
                after_call call s1))).
Proof.
  split; [reflexivity|]. split.
  - intros Hc. unfold gen_next. py_unfold. simpl. rewrite Hc. reflexivity.
  - intros c entries Hc Hl call s1. split; [|split].
    + apply gen_next_created; assumption.
    + intros fuel Hf. apply gen_list_created; assumption.
    + intros fuel Hf.
      apply (gen_list_created env s1 c entries fuel); assumption.
Qed.

Lemma proposals_lazy_witness :
  gen_next Demo.env GenCreated Demo.fresh
  = (Raise NotConnectedError, GenFinished, Demo.fresh).
Proof.
  exact (proj1 (proj2 (proposals_lazy Demo.env Demo.fresh)) eq_refl).
Defined.

(** C5, as stated, fails: on a disconnected client the call returns a
    generator and raises nothing; the generator can even be read after a
    later [connect()]. *)
Lemma proposals_call_counterexample :
  connected (self Demo.fresh) = false /\
  proposals Demo.fresh = (Ok GenCreated, Demo.fresh) /\
  fst (proposals Demo.fresh) <> Raise NotConnectedError /\
  (exists s', gen_list Demo.env 4 GenCreated (snd (connect Demo.env Demo.fresh))
              = Some (Ok ["12345"; "sandbox"; "99"], GenFinished, s')).
Proof.
  repeat split; try reflexivity.
  - simpl. discriminate.
  - eexists. vm_compute. reflexivity.
Qed.

(** ** Segments of a path string *)

Section Segments.
Import PyStr.

Lemma length_append (a b : string) :
  String.length (a ++ b) = String.length a + String.length b.
Proof. induction a; simpl; auto. Qed.

Lemma slice_lengths i : forall p,
  String.length (slice_to i p) + String.length (slice_from i p)
  = String.length p.
Proof.
  induction i as [|i IH]; intros p; destruct p as [|c p]; simpl; auto.
Qed.

Lemma rstrip_decompose s :
  exists k, s = (rstrip_sep s ++ posixpath.repeat_sep k)%string.
Proof.
  induction s as [|c r [k IH]]; simpl.
  - exists 0. reflexivity.
  - destruct (rstrip_sep r) as [|d r'] eqn:E.
    + simpl in IH. destruct (Ascii.eqb c sep_char) eqn:Ec.
      * apply Ascii.eqb_eq in Ec. subst c. exists (S k). simpl.
        rewrite IH at 1. reflexivity.
      * exists k. simpl. rewrite IH at 1. reflexivity.
    + exists k. simpl. rewrite IH at 1. reflexivity.
Qed.

Lemma length_repeat_sep k : String.length (posixpath.repeat_sep k) = k.
Proof. induction k; simpl; auto. Qed.

Lemma rstrip_length s : String.length (rstrip_sep s) <= String.length s.
Proof.
  destruct (rstrip_decompose s) as [k H].
  rewrite H at 2. rewrite length_append. lia.
Qed.

Lemma trim_head_length h :
  String.length (posixpath.trim_head h) <= String.length h.
Proof.
  unfold posixpath.trim_head.
  destruct (truthy h && _); [apply rstrip_length|lia].
Qed.

Lemma trim_head_truthy h : truthy (posixpath.trim_head h) = truthy h.
Proof.
  unfold posixpath.trim_head.
  destruct (truthy h) eqn:Ht; [|cbn [andb]; exact Ht]. cbn [andb].
  destruct (String.eqb h _) eqn:E; cbn [negb]; [exact Ht|].
  destruct (rstrip_sep h) eqn:Er; [|reflexivity].
  exfalso. apply String.eqb_neq in E. apply E.
  destruct (rstrip_decompose h) as [k H]. rewrite Er in H. simpl in H.
  rewrite H at 2. rewrite length_repeat_sep. exact H.
Qed.

Lemma split_head_length p :
  String.length (fst (posixpath.split p)) <= String.length p /\
  (truthy (snd (posixpath.split p)) = true ->
   String.length (fst (posixpath.split p)) < String.length p).
Proof.
  unfold posixpath.split. cbn [fst snd].
  pose proof (slice_lengths (posixpath.rfind_sep1 p) p) as H.
  pose proof (trim_head_length (slice_to (posixpath.rfind_sep1 p) p)) as Ht.
  split; [lia|].
  destruct (slice_from (posixpath.rfind_sep1 p) p); simpl in *;
    [discriminate|lia].
Qed.

Lemma has_sep_split x : has_sep x = false -> split_sep x = [x].
Proof.
  induction x as [|c x IH]; simpl; [reflexivity|].
  destruct (Ascii.eqb c sep_char); [discriminate|].
  simpl. intros H. rewrite (IH H). reflexivity.
Qed.

Lemma rfind_decompose s :
  has_sep (slice_from (posixpath.rfind_sep1 s) s) = false /\
  (posixpath.rfind_sep1 s = 0 \/
   exists x, slice_to (posixpath.rfind_sep1 s) s = (x ++ "/")%string /\
             s = (x ++ String "/" (slice_from (posixpath.rfind_sep1 s) s))%string).
Proof.
  induction s as [|c r [IH1 IH2]]; simpl.
  - auto.
  - destruct (posixpath.rfind_sep1 r) as [|k] eqn:Er.
    + simpl in IH1. destruct (Ascii.eqb c sep_char) eqn:Ec.
      * apply Ascii.eqb_eq in Ec. subst c. simpl. split; [exact IH1|].
        right. exists "". split; reflexivity.
      * simpl. rewrite Ec, IH1. auto.
    + split; [exact IH1|]. right.
      destruct IH2 as [IH2|(x & Hx1 & Hx2)]; [discriminate|].
      exists (String c x).
      change (slice_to (S (S k)) (String c r)) with (String c (slice_to (S k) r)).
      change (slice_from (S (S k)) (String c r)) with (slice_from (S k) r).
      rewrite Hx1. split; [reflexivity|].
      cbn [append]. f_equal. exact Hx2.
Qed.

(** The tail of [posixpath.split] is a segment. *)
Lemma split_tail_segment s : In (snd (posixpath.split s)) (split_sep s).
Proof.
  unfold posixpath.split. cbn [snd].
  destruct (rfind_decompose s) as [Hn [H0|(x & Hx1 & Hx2)]].
  - rewrite H0 in *. simpl in *. rewrite (has_sep_split s Hn). left. reflexivity.
  - remember (slice_from (posixpath.rfind_sep1 s) s) as t eqn:Et.
    clear Et Hx1. rewrite Hx2. rewrite split_sep_app_sep. apply in_or_app. right.
    rewrite (has_sep_split _ Hn). left. reflexivity.
Qed.

Lemma split_sep_rstrip s c :
  In c (split_sep (rstrip_sep s)) -> In c (split_sep s).
Proof.
  destruct (rstrip_decompose s) as [k H]. revert H.
  generalize (rstrip_sep s). intros y H. subst s.
  destruct k as [|k]; simpl.
  - rewrite append_empty_r. auto.
  - intros Hc. rewrite split_sep_app_sep. apply in_or_app. left. exact Hc.
Qed.

Lemma split_sep_trim_head h c :
  In c (split_sep (posixpath.trim_head h)) -> In c (split_sep h).
Proof.
  unfold posixpath.trim_head.
  destruct (truthy h && _); [apply split_sep_rstrip|auto].
Qed.

(** The segments of the head of [posixpath.split] are segments. *)
Lemma split_head_segment s c :
  In c (split_sep (fst (posixpath.split s))) -> c = "" \/ In c (split_sep s).
Proof.
  unfold posixpath.split. cbn [fst]. intros H.
  apply split_sep_trim_head in H.
  destruct (rfind_decompose s) as [Hn [H0|(x & Hx1 & Hx2)]].
  - rewrite H0 in H. simpl in H. destruct H as [H|[]]. auto.
  - rewrite Hx1 in H.
    change (x ++ "/")%string with (x ++ String "/" "")%string in H.
    rewrite split_sep_app_sep in H. apply in_app_or in H.
    destruct H as [H|[H|[]]]; [|auto].
    right. remember (slice_from (posixpath.rfind_sep1 s) s) as t eqn:Et.
    clear Et Hx1 Hn. rewrite Hx2. rewrite split_sep_app_sep. apply in_or_app.
    auto.
Qed.

Lemma dirname_segment s c :
  In c (split_sep (posixpath.dirname s)) -> c = "" \/ In c (split_sep s).
Proof. apply (split_head_segment s c). Qed.

Lemma split_sep_join_names names :
  names <> [] ->
  Forall (fun c => has_sep c = false) names ->
  split_sep (join_sep names) = names.
Proof.
  unfold join_sep. induction names as [|x names IH]; intros Hn Hs;
    [congruence|].
  inversion Hs as [|? ? Hx Hrest]; subst.
  destruct names as [|y names].
  - simpl. apply has_sep_split. exact Hx.
  - change (String.concat "/" (x :: y :: names))
      with (x ++ String "/" (String.concat "/" (y :: names)))%string.
    rewrite split_sep_app_sep, (has_sep_split x Hx).
    rewrite IH by (try discriminate; assumption). reflexivity.
Qed.

End Segments.

(** ** One resolution of the home directory *)

#[local] Arguments adjust_cwd : simpl never.
#[local] Arguments _join_posix : simpl never.

Lemma has_sep_app_sep (d x : string) : has_sep (d ++ String "/" x) = true.
Proof.
  induction d as [|c d IH]; simpl.
  - reflexivity.
  - rewrite IH. apply orb_true_r.
Qed.

(** The last name of a path is what follows its last separator. *)
Lemma basename_app (y f : string) :
  has_sep f = false -> snd (posixpath.split (y ++ String "/" f)) = f.
Proof.
  intros Hf. unfold posixpath.split. cbn [snd].
  destruct (rfind_decompose (y ++ String "/" f)) as [Hn [H0|(x & _ & Hx)]].
  - rewrite H0 in Hn. simpl in Hn. rewrite has_sep_app_sep in Hn.
    discriminate.
  - remember (PyStr.slice_from _ _) as t eqn:Et. clear Et.
    apply (f_equal PyStr.split_sep) in Hx.
    rewrite !split_sep_app_sep in Hx.
    rewrite (has_sep_split f Hf), (has_sep_split t Hn) in Hx.
    apply app_inj_tail in Hx. destruct Hx as [_ Hx]. symmetry. exact Hx.
Qed.

Lemma basename_adjust d x :
  PyStr.startswith x "/" = false -> has_sep x = false ->
  snd (posixpath.split (adjust_cwd (Some d) x)) = x.
Proof.
  intros Hx Hs. unfold adjust_cwd. rewrite Hx.
  destruct (String.eqb d "/") eqn:E.
  - apply String.eqb_eq in E. subst d. apply (basename_app "" x Hs).
  - apply (basename_app d x Hs).
Qed.

(** A [readlink("MyData")] is counted whatever the working directory of
    the connection is. *)
Lemma home_resolution_seen c cwd :
  is_home_resolution (EvReadlink c (adjust_cwd cwd "MyData")) = true.
Proof.
  destruct cwd as [d|]; [|reflexivity].
  cbn [is_home_resolution].
  rewrite (basename_adjust d "MyData" eq_refl eq_refl). reflexivity.
Qed.

(** The link of a proposal whose id is a plain name is not counted. *)
Lemma proposal_link_not_home c d value :
  has_sep value = false ->
  is_home_resolution (EvReadlink c (adjust_cwd (Some d) ("exp_" ++ value)))
  = false.
Proof.
  intros Hs. cbn [is_home_resolution].
  rewrite (basename_adjust d ("exp_" ++ value) eq_refl);
    [reflexivity|exact Hs].
Qed.

Lemma connect_ok_inv env (s s1 : State IllSftp) :
  _connection (self s) = None ->
  cwd_of (opened (world s)) (cwds (world s)) = None ->
  connect env s = (Ok tt, s1) ->
  exists h verify,
    readlink_of env "MyData" = Some h /\
    s1 = mkState
           (with_home h (with_connection (Some (opened (world s))) (self s)))
           (mkWorld (EvReadlink (opened (world s)) "MyData"
                     :: EvOpen (hostname (self s)) (username (self s))
                               (port (self s)) verify
                     :: log (world s))
                    (S (opened (world s))) (cwds (world s)) (fs (world s))
                    (getcwd (world s))).
Proof.
  intros Hc Hw. py_unfold. simpl. rewrite Hc.
  connect_cases env s;
    try (destruct (accepts env _ _ _ _ _); simpl;
         [ rewrite Hw; unfold adjust_cwd; simpl; destruct (readlink_of env "MyData") eqn:Hr; simpl | ]);
    intros H; inversion H; subst; clear H;
    do 2 eexists; split; reflexivity.
Qed.

(** A [connect()] that succeeds on a disconnected client makes one
    connection, with the host key verified as [known_hosts_path] says,
    and reads [MyData] on it. *)
Lemma connect_ok_log env (s s1 : State IllSftp) :
  _connection (self s) = None ->
  cwd_of (opened (world s)) (cwds (world s)) = None ->
  connect env s = (Ok tt, s1) ->
  log (world s1)
  = [EvReadlink (opened (world s)) "MyData";
     EvOpen (hostname (self s)) (username (self s)) (port (self s))
            (verifies_host_key (self s))] ++ log (world s).
Proof.
  intros Hc Hw. unfold verifies_host_key. py_unfold. simpl. rewrite Hc.
  connect_cases env s;
    try (destruct (accepts env _ _ _ _ _); simpl;
         [ rewrite Hw; unfold adjust_cwd; simpl;
           destruct (readlink_of env "MyData") eqn:Hr; simpl | ]);
    intros H; inversion H; subst; clear H; reflexivity.
Qed.

(** C8. After a [connect()] that succeeded on a disconnected client,
    opening a proposal whose link the server has (a non-empty id) and
    listing ["."] succeeds.  The remote calls of the whole run,
    [connect()] included, are exactly five: the connection is made, the
    [MyData] link is read, the working directory is changed to
    [byProposal] below the home directory that was read, the link of the
    proposal is read there, and its directory is listed.  So [connect()]
    reads [MyData] and nothing after it does: for an id that is a plain
    name, the run asks once for a link named [MyData], counted on the
    paths as they are sent. *)
Theorem home_resolved_once env (s s1 : State IllSftp) P d pd entries :
  _connection (self s) = None ->
  cwd_of (opened (world s)) (cwds (world s)) = None ->
  connect env s = (Ok tt, s1) ->
  P <> "" ->
  realdir_of env (_join_posix (_home (self s1)) ["byProposal"]) = Some d ->
  readlink_of env (adjust_cwd (Some d) ("exp_" ++ P)) = Some pd ->
  listdir_of env (adjust_cwd (Some d) (_join_posix pd ["."])) = Some entries ->
  let c := opened (world s) in
  exists s3,
    (open_proposal env P ;; listdir env "." false) s1
    = (Ok (Names (map filename entries)), s3) /\
    log (world s3)
    = [EvListdir c (adjust_cwd (Some d) (_join_posix pd ["."]));
       EvReadlink c (adjust_cwd (Some d) ("exp_" ++ P));
       EvChdir c (_join_posix (_home (self s1)) ["byProposal"]);
       EvReadlink c "MyData";
       EvOpen (hostname (self s)) (username (self s)) (port (self s))
              (verifies_host_key (self s))] ++ log (world s) /\
    (has_sep P = false ->
     home_resolutions (log (world s3)) = S (home_resolutions (log (world s)))) /\
    readlink_of env "MyData" = Some (_home (self s1)) /\
    _home (self s3) = _home (self s1) /\
    proposal (self s3) = P /\
    _propdir (self s3) = pd.
Proof.
  intros Hc Hw Hconn HP Hcd Hrl Hls c.
  pose proof (connect_ok_log env s s1 Hc Hw Hconn) as Hlog.
  destruct (connect_ok_inv env s s1 Hc Hw Hconn) as (h & verify & Hh & ->).
  simpl in Hcd, Hrl, Hlog. injection Hlog as Hv. subst verify. clear Hconn.
  assert (HPt : PyStr.truthy P = true) by (apply truthy_true_iff; exact HP).
  subst c. eexists. split; [|split; [|split; [|split; [|split; [|split]]]]].
  - py_unfold. simpl. rewrite Hw. unfold adjust_cwd at 1. rewrite Hcd. simpl.
    rewrite Nat.eqb_refl. simpl. rewrite Hrl. simpl.
    rewrite HPt. simpl. rewrite Nat.eqb_refl. rewrite Hls. simpl. reflexivity.
  - reflexivity.
  - intros Hs. unfold home_resolutions. cbn [world log with_log app filter].
    change (String "e" (String "x" (String "p" (String "_" P))))
      with ("exp_" ++ P)%string.
    rewrite (proposal_link_not_home (opened (world s)) d P Hs).
    reflexivity.
  - exact Hh.
  - reflexivity.
  - reflexivity.
  - reflexivity.
Qed.

Lemma home_resolved_once_witness :
  exists s3,
    (open_proposal Demo.env "12345" ;; listdir Demo.env "." false)
      Demo.connected_
    = (Ok (Names ["f.dat"]), s3) /\
    log (world s3)
    = [EvListdir 0 "/data/exp_12345";
       EvReadlink 0 "/users/u/byProposal/exp_12345";
       EvChdir 0 "/users/u/byProposal";
       EvReadlink 0 "MyData";
       EvOpen "sftp.ill.eu" "u" 22 false] /\
    home_resolutions (log (world s3)) = 1 /\
    readlink_of Demo.env "MyData" = Some "/users/u" /\
    _home (self s3) = "/users/u" /\
    proposal (self s3) = "12345" /\
    _propdir (self s3) = "/data/exp_12345".
Proof.
  destruct (home_resolved_once Demo.env Demo.fresh Demo.connected_ "12345"
              "/users/u/byProposal" "/data/exp_12345" [Demo.entry "f.dat"]
              eq_refl eq_refl eq_refl ltac:(discriminate) eq_refl eq_refl
              eq_refl)
    as (s3 & H1 & H2 & H3 & H4 & H5 & H6 & H7).
  exists s3. repeat split; try assumption. exact (H3 eq_refl).
Defined.

(** A second [connect()] on the connected client resolves nothing. *)
Lemma reconnect_resolves_nothing env (s : State IllSftp) c :
  _connection (self s) = Some c ->
  home_resolutions (log (world (snd (connect env s))))
  = home_resolutions (log (world s)).
Proof.
  intros H. rewrite (connect_returns_early env s c H). reflexivity.
Qed.

(** ** The local file system *)

Section LocalFsFacts.
Import LocalFs.

Lemma get_set_same c x es : get_entry c (set_entry c x es) = Some x.
Proof.
  induction es as [|[k v] es IH]; simpl.
  - rewrite String.eqb_refl. reflexivity.
  - destruct (String.eqb k c) eqn:E; simpl; rewrite E; auto.
Qed.

Lemma get_set_other c k x es :
  k <> c -> get_entry k (set_entry c x es) = get_entry k es.
Proof.
  intros Hk. induction es as [|[k' v] es IH]; simpl.
  - destruct (String.eqb c k) eqn:E; [|reflexivity].
    apply String.eqb_eq in E. congruence.
  - destruct (String.eqb k' c) eqn:E; simpl.
    + apply String.eqb_eq in E. subst k'.
      destruct (String.eqb c k) eqn:E2; [|reflexivity].
      apply String.eqb_eq in E2. congruence.
    + rewrite IH. reflexivity.
Qed.

Lemma lookup_put_same p : forall root root' x,
  put root p x = Some root' -> lookup root' p = Some x.
Proof.
  induction p as [|c p IH]; intros root root' x H; simpl in *.
  - congruence.
  - destruct root as [|es]; [discriminate|].
    destruct p as [|c' p'].
    + inversion H; subst. simpl. rewrite get_set_same. reflexivity.
    + destruct (get_entry c es) as [ch|]; [|discriminate].
      destruct (put ch (c' :: p') x) as [ch'|] eqn:E; [|discriminate].
      inversion H; subst. cbn [lookup]. rewrite get_set_same.
      apply (IH ch ch' x E).
Qed.


Lemma is_dir_at_cons root c q :
  is_dir_at root (c :: q) = true ->
  exists es ch, root = Dir es /\ get_entry c es = Some ch /\ is_dir_at ch q = true.
Proof.
  unfold is_dir_at. simpl. destruct root as [|es]; [discriminate|].
  destruct (get_entry c es) as [ch|] eqn:Eg; [|discriminate].
  intros H. exists es, ch. split; [reflexivity|]. split; [exact Eg|].
  exact H.
Qed.

Lemma is_dir_at_step es c q ch :
  get_entry c es = Some ch -> is_dir_at (Dir es) (c :: q) = is_dir_at ch q.
Proof. intros H. unfold is_dir_at. simpl. rewrite H. reflexivity. Qed.

(** A directory is below directories only. *)
Lemma is_dir_at_prefix q : forall root r,
  is_dir_at root (q ++ r) = true -> is_dir_at root q = true.
Proof.
  induction q as [|c q IH]; intros root r H.
  - destruct r as [|c r].
    + exact H.
    + destruct (is_dir_at_cons root c r H) as (es & ch & -> & _ & _).
      reflexivity.
  - simpl in H. destruct (is_dir_at_cons root c (q ++ r) H) as (es & ch & -> & Hg & Hd).
    rewrite (is_dir_at_step es c q ch Hg). apply (IH ch r Hd).
Qed.


(** Storing a node where no directory was keeps every directory. *)
Lemma put_keeps_dirs p : forall root root' x,
  put root p x = Some root' ->
  is_dir_at root p = false ->
  forall q, is_dir_at root q = true -> is_dir_at root' q = true.
Proof.
  induction p as [|c p IH]; intros root root' x H Hn q Hq.
  - destruct q as [|k q].
    + congruence.
    + destruct (is_dir_at_cons root k q Hq) as (es & ch & -> & _ & _).
      discriminate.
  - simpl in H. destruct root as [|es]; [discriminate|].
    destruct q as [|k q].
    + destruct p; [inversion H; reflexivity|].
      destruct (get_entry c es); [|discriminate].
      destruct (put n (s :: p) x); [|discriminate]. inversion H. reflexivity.
    + destruct (is_dir_at_cons _ k q Hq) as (es' & ch & Heq & Hg & Hd).
      inversion Heq; subst es'. clear Heq.
      destruct (String.eqb k c) eqn:Ekc.
      * apply String.eqb_eq in Ekc. subst k.
        rewrite (is_dir_at_step es c p ch Hg) in Hn.
        destruct p as [|c' p'].
        -- exfalso. 
           assert (is_dir_at ch [] = true) by
             (apply (is_dir_at_prefix [] ch q); exact Hd).
           congruence.
        -- rewrite Hg in H.
           destruct (put ch (c' :: p') x) as [ch'|] eqn:E; [|discriminate].
           inversion H; subst.
           rewrite (is_dir_at_step _ c q ch' (get_set_same c ch' es)).
           apply (IH ch ch' x E Hn q Hd).
      * apply String.eqb_neq in Ekc.
        assert (Hroot : exists y, root' = Dir (set_entry c y es)).
        { destruct p as [|c' p']; [inversion H; eauto|].
          destruct (get_entry c es); [|discriminate].
          destruct (put n (c' :: p') x); [|discriminate].
          inversion H; eauto. }
        destruct Hroot as [y ->].
        assert (Hg' : get_entry k (set_entry c y es) = Some ch)
          by (rewrite get_set_other; assumption).
        rewrite (is_dir_at_step _ k q ch Hg'). exact Hd.
Qed.

Lemma namei_stable root root' comps : forall cur p,
  (forall q, is_dir_at root q = true -> is_dir_at root' q = true) ->
  namei root cur comps = Some p -> namei root' cur comps = Some p.
Proof.
  induction comps as [|c rest IH]; intros cur p Hd H; simpl in *.
  - exact H.
  - destruct (String.eqb c ""); [apply IH; assumption|].
    destruct (is_dir_at root (rev cur)) eqn:E; [|discriminate].
    rewrite (Hd _ E). simpl in *.
    destruct (String.eqb c "."); [apply IH; assumption|].
    destruct (String.eqb c ".."); apply IH; assumption.
Qed.

Lemma resolve_stable root root' cwd path p :
  (forall q, is_dir_at root q = true -> is_dir_at root' q = true) ->
  resolve root cwd path = Some p -> resolve root' cwd path = Some p.
Proof.
  intros Hd. unfold resolve.
  destruct (negb (PyStr.truthy path)); [discriminate|].
  destruct (PyStr.startswith path "/"); apply namei_stable; assumption.
Qed.


Lemma mkdir_ok root cwd path root' :
  mkdir root cwd path = Ok root' ->
  isdir root' cwd path = true /\
  (forall q, is_dir_at root q = true -> is_dir_at root' q = true).
Proof.
  unfold mkdir.
  destruct (resolve root cwd path) as [p|] eqn:Er; [|discriminate].
  destruct (lookup root p) eqn:El; [discriminate|].
  destruct (put root p (Dir [])) as [r|] eqn:Ep; [|discriminate].
  intros H. inversion H; subst r. clear H.
  assert (Hk : forall q, is_dir_at root q = true -> is_dir_at root' q = true).
  { apply (put_keeps_dirs p root root' (Dir []) Ep).
    unfold is_dir_at. rewrite El. reflexivity. }
  split; [|exact Hk].
  unfold isdir. rewrite (resolve_stable root root' cwd path p Hk Er).
  unfold is_dir_at. rewrite (lookup_put_same p root root' _ Ep). reflexivity.
Qed.


Lemma write_file_inv root cwd path data root' :
  LocalFs.write_file root cwd path data = Ok root' ->
  exists p,
    LocalFs.resolve root cwd path = Some p /\
    LocalFs.is_dir_at root p = false /\
    LocalFs.names_dir_only path = false /\
    LocalFs.put root p (LocalFs.File data) = Some root'.
Proof.
  unfold LocalFs.write_file.
  destruct (LocalFs.resolve root cwd path) as [p|] eqn:Er; [|discriminate].
  intros H. exists p. split; [reflexivity|].
  unfold LocalFs.is_dir_at.
  destruct (LocalFs.lookup root p) as [[d|es]|] eqn:El; try discriminate;
    (destruct (LocalFs.names_dir_only path); [discriminate|]);
    (destruct (LocalFs.put root p (LocalFs.File data)) as [r|];
       [|discriminate]);
    inversion H; subst r; auto.
Qed.

Lemma write_then_read root cwd path data root' :
  LocalFs.write_file root cwd path data = Ok root' ->
  LocalFs.read_file root' cwd path = Ok data.
Proof.
  intros H.
  destruct (write_file_inv root cwd path data root' H)
    as (p & Er & Hn & Hd & Hp).
  unfold LocalFs.read_file.
  rewrite (resolve_stable root root' cwd path p
             (put_keeps_dirs p root root' _ Hp Hn) Er).
  rewrite (lookup_put_same p root root' _ Hp), Hd. reflexivity.
Qed.

(** *** What stands where *)










Lemma app_cons_neq (p : list string) c r : p ++ c :: r <> p.
Proof.
  intros H. apply (f_equal (@List.length string)) in H.
  rewrite length_app in H. simpl in H. lia.
Qed.


End LocalFsFacts.

(** ** [os.makedirs] *)

Section Makedirs.
Import LocalFs PyStr.

Lemma makedirs_rec_eq fuel exist_ok root cwd name :
  makedirs_rec fuel exist_ok root cwd name
  = let '(head, tail) := makedirs_parts name in
    if truthy head && truthy tail && negb (exists_ root cwd head) then
      match fuel with
      | O => None
      | S fuel' =>
          match makedirs_rec fuel' exist_ok root cwd head with
          | None => None
          | Some (Raise (FileExistsError _), root1)
          | Some (Ok _, root1) =>
              if String.eqb tail "." then Some (Ok tt, root1)
              else finish_mkdir exist_ok cwd name root1
          | Some (Raise e, root1) => Some (Raise e, root1)
          end
      end
    else finish_mkdir exist_ok cwd name root.
Proof.
  unfold makedirs_parts, finish_mkdir.
  destruct fuel; cbn [makedirs_rec];
    destruct (posixpath.split name) as [head0 tail0];
    destruct (negb (truthy tail0));
    try destruct (posixpath.split head0) as [head tail]; reflexivity.
Qed.

Lemma finish_mkdir_ok cwd name root1 root' :
  finish_mkdir true cwd name root1 = Some (Ok tt, root') ->
  isdir root' cwd name = true /\
  (forall q, is_dir_at root1 q = true -> is_dir_at root' q = true).
Proof.
  unfold finish_mkdir. destruct (mkdir root1 cwd name) as [r|e] eqn:E.
  - intros H. inversion H; subst. apply (mkdir_ok root1 cwd name root' E).
  - cbn [negb orb]. destruct (isdir root1 cwd name) eqn:Ei; cbn [negb].
    + intros H. inversion H; subst. auto.
    + discriminate.
Qed.

Lemma makedirs_rec_ok fuel root cwd name root' :
  makedirs_rec fuel true root cwd name = Some (Ok tt, root') ->
  snd (makedirs_parts name) <> "." ->
  isdir root' cwd name = true.
Proof.
  rewrite makedirs_rec_eq.
  destruct (makedirs_parts name) as [head tail]. cbn [snd]. intros H Ht.
  apply String.eqb_neq in Ht.
  destruct (truthy head && truthy tail && negb (exists_ root cwd head)).
  - destruct fuel as [|fuel]; [discriminate|].
    rewrite Ht in H.
    destruct (makedirs_rec fuel true root cwd head) as [[[u|e] r1]|];
      [| |discriminate].
    + apply (finish_mkdir_ok cwd name r1 root' H).
    + destruct e; try discriminate.
      apply (finish_mkdir_ok cwd name r1 root' H).
  - apply (finish_mkdir_ok cwd name root root' H).
Qed.

End Makedirs.

(** ** Normal absolute paths *)

Section Normal.
Import PyStr.

Lemma split_sep_repeat k y c :
  In c (split_sep (posixpath.repeat_sep k ++ y)) ->
  c = "" \/ In c (split_sep y).
Proof.
  induction k as [|k IH]; simpl; [auto|].
  intros [H|H]; auto.
Qed.

Lemma split_sep_join comps c :
  (forall x, In x comps -> has_sep x = false) ->
  In c (split_sep (join_sep comps)) -> c = "" \/ In c comps.
Proof.
  unfold join_sep. induction comps as [|x comps IH]; intros Hs H.
  - simpl in H. destruct H as [H|[]]. auto.
  - destruct comps as [|y comps].
    + simpl in H. rewrite (has_sep_split x) in H by (apply Hs; left; reflexivity).
      destruct H as [H|[]]. right. left. exact H.
    + change (String.concat "/" (x :: y :: comps))
        with (x ++ String "/" (String.concat "/" (y :: comps)))%string in H.
      rewrite split_sep_app_sep in H. apply in_app_or in H.
      destruct H as [H|H].
      * rewrite (has_sep_split x) in H by (apply Hs; left; reflexivity).
        destruct H as [H|[]]. right. left. exact H.
      * destruct (IH (fun z Hz => Hs z (or_intror Hz)) H) as [H1|H1]; auto.
        right. right. exact H1.
Qed.

Lemma normpath_loop_good k comps : forall acc,
  k <> 0 ->
  (forall c, In c acc -> good_name c) ->
  (forall c, In c comps -> has_sep c = false) ->
  forall c, In c (posixpath.normpath_loop k comps acc) -> good_name c.
Proof.
  induction comps as [|comp rest IH]; intros acc Hk Ha Hc c H; simpl in H.
  - apply Ha. apply in_rev. exact H.
  - assert (Hrest : forall c, In c rest -> has_sep c = false)
      by (intros z Hz; apply Hc; right; exact Hz).
    destruct (String.eqb comp "") eqn:E1; cbn [orb] in H;
      [apply (IH acc Hk Ha Hrest c H)|].
    destruct (String.eqb comp ".") eqn:E2; cbn [orb] in H;
      [apply (IH acc Hk Ha Hrest c H)|].
    apply String.eqb_neq in E1. apply String.eqb_neq in E2.
    assert (Hk0 : Nat.eqb k 0 = false) by (apply Nat.eqb_neq; exact Hk).
    rewrite Hk0 in H. cbn [andb orb] in H.
    destruct (String.eqb comp "..") eqn:E3; cbn [negb orb] in H.
    + destruct acc as [|last popped].
      * apply (IH [] Hk Ha Hrest c H).
      * assert (Hl : String.eqb last ".." = false).
        { apply String.eqb_neq. apply (Ha last). left. reflexivity. }
        rewrite Hl in H.
        apply (IH popped Hk (fun z Hz => Ha z (or_intror Hz)) Hrest c H).
    + apply String.eqb_neq in E3.
      refine (IH (comp :: acc) Hk _ Hrest c H).
      intros z [<-|Hz]; [|apply Ha; exact Hz].
      repeat split; try assumption. apply Hc. left. reflexivity.
Qed.

Lemma startswith_app (a t : string) :
  startswith a "/" = true -> startswith (a ++ t) "/" = true.
Proof. destruct a; simpl; auto. discriminate. Qed.

Lemma normpath_abs p :
  startswith p "/" = true ->
  startswith (posixpath.normpath p) "/" = true /\
  plain_path (posixpath.normpath p).
Proof.
  intros Hp. unfold posixpath.normpath.
  assert (Ht : truthy p = true) by (destruct p; [discriminate|reflexivity]).
  rewrite Ht, Hp. cbn [negb].
  set (k := if startswith p "//" && negb (startswith p "///") then 2 else 1).
  assert (Hk : exists j, k = S j) by
    (unfold k; destruct (startswith p "//" && _); eauto).
  destruct Hk as [j Hj].
  set (comps := posixpath.normpath_loop k (split_sep p) []).
  assert (Hor : or_else (posixpath.repeat_sep k ++ join_sep comps) "."
                = (posixpath.repeat_sep k ++ join_sep comps)%string).
  { rewrite Hj. reflexivity. }
  rewrite Hor. split.
  - rewrite Hj. reflexivity.
  - intros c Hc. apply split_sep_repeat in Hc.
    assert (Hg : forall z, In z comps -> good_name z).
    { apply normpath_loop_good.
      - rewrite Hj. discriminate.
      - intros z [].
      - intros z Hz. pose proof (split_sep_no_sep p) as Hn.
        rewrite Forall_forall in Hn. apply Hn. exact Hz. }
    destruct Hc as [->|Hc]; [split; discriminate|].
    apply split_sep_join in Hc; [|intros x Hx; apply (Hg x Hx)].
    destruct Hc as [->|Hc]; [split; discriminate|].
    destruct (Hg c Hc) as (_ & H1 & H2 & _). auto.
Qed.

Lemma abspath_abs cwd path :
  startswith cwd "/" = true ->
  startswith (posixpath.abspath cwd path) "/" = true /\
  plain_path (posixpath.abspath cwd path).
Proof.
  intros Hc. unfold posixpath.abspath, posixpath.isabs.
  destruct (startswith path "/") eqn:Ep.
  - apply normpath_abs. exact Ep.
  - apply normpath_abs. unfold posixpath.join. cbn [fold_left].
    unfold posixpath.join_step. rewrite Ep.
    destruct (negb (truthy cwd) || endswith_sep cwd);
      apply startswith_app; exact Hc.
Qed.

Lemma dirname_abs s :
  startswith s "/" = true -> truthy (posixpath.dirname s) = true.
Proof.
  intros H. unfold posixpath.dirname. rewrite trim_head_truthy.
  destruct s as [|c r]; [discriminate|].
  cbn [startswith] in H. apply andb_true_iff in H. destruct H as [H _].
  cbn [posixpath.rfind_sep1]. unfold sep_char. rewrite H.
  destruct (posixpath.rfind_sep1 r); reflexivity.
Qed.

Lemma dirname_plain s : plain_path s -> plain_path (posixpath.dirname s).
Proof.
  intros H c Hc. apply dirname_segment in Hc.
  destruct Hc as [->|Hc]; [split; discriminate|apply H; exact Hc].
Qed.

Lemma makedirs_tail_plain name :
  plain_path name -> snd (makedirs_parts name) <> ".".
Proof.
  intros H. unfold makedirs_parts.
  pose proof (split_tail_segment name) as Ht.
  destruct (posixpath.split name) as [head0 tail0] eqn:Es.
  cbn [snd] in Ht.
  destruct (truthy tail0); cbn [negb].
  - cbn [snd]. apply H. exact Ht.
  - pose proof (split_tail_segment head0) as Ht2.
    assert (Hh : In (snd (posixpath.split head0))
                    (split_sep (fst (posixpath.split name))))
      by (rewrite Es; exact Ht2).
    apply split_head_segment in Hh.
    destruct Hh as [Hh|Hh]; [rewrite Hh; discriminate|apply H; exact Hh].
Qed.

Lemma makedirs_parts_length name :
  truthy (snd (makedirs_parts name)) = true ->
  String.length (fst (makedirs_parts name)) < String.length name.
Proof.
  unfold makedirs_parts.
  pose proof (split_head_length name) as [H1 H2].
  destruct (posixpath.split name) as [head0 tail0]. cbn [fst snd] in *.
  destruct (truthy tail0); cbn [negb].
  - cbn [fst snd]. intros _. apply H2. reflexivity.
  - pose proof (split_head_length head0) as [H3 H4]. intros Ht.
    specialize (H4 Ht). lia.
Qed.

Lemma finish_mkdir_some exist_ok cwd name root :
  finish_mkdir exist_ok cwd name root <> None.
Proof.
  unfold finish_mkdir. destruct (LocalFs.mkdir root cwd name);
    [discriminate|]. destruct (_ || _); discriminate.
Qed.

(** The length of the name is fuel enough for [os.makedirs]. *)
Lemma makedirs_rec_fuel fuel : forall exist_ok root cwd name,
  String.length name <= fuel ->
  LocalFs.makedirs_rec fuel exist_ok root cwd name <> None.
Proof.
  induction fuel as [|fuel IH]; intros exist_ok root cwd name Hl;
    rewrite makedirs_rec_eq;
    pose proof (makedirs_parts_length name) as Hp;
    destruct (makedirs_parts name) as [head tail]; cbn [fst snd] in Hp;
    destruct (truthy head && truthy tail
              && negb (LocalFs.exists_ root cwd head)) eqn:Ec;
    try apply finish_mkdir_some.
  - apply andb_true_iff in Ec. destruct Ec as [Ec _].
    apply andb_true_iff in Ec. destruct Ec as [_ Ec].
    specialize (Hp Ec). lia.
  - apply andb_true_iff in Ec. destruct Ec as [Ec _].
    apply andb_true_iff in Ec. destruct Ec as [_ Ec].
    specialize (Hp Ec).
    assert (Hh : String.length head <= fuel) by lia.
    pose proof (IH exist_ok root cwd head Hh) as Hi.
    destruct (LocalFs.makedirs_rec fuel exist_ok root cwd head)
      as [[[u|e] r1]|]; [| |congruence].
    + destruct (String.eqb tail "."); [discriminate|apply finish_mkdir_some].
    + destruct e; try discriminate.
      destruct (String.eqb tail "."); [discriminate|apply finish_mkdir_some].
Qed.

Lemma makedirs_ok root cwd name root' :
  plain_path name ->
  LocalFs.makedirs true root cwd name = (Ok tt, root') ->
  LocalFs.isdir root' cwd name = true.
Proof.
  intros Hp. unfold LocalFs.makedirs.
  destruct (LocalFs.makedirs_rec (String.length name) true root cwd name)
    as [[r t]|] eqn:E; [|discriminate].
  intros H. inversion H; subst.
  apply (makedirs_rec_ok _ root cwd name root' E).
  apply makedirs_tail_plain. exact Hp.
Qed.

End Normal.

(** ** Downloading *)





(** Every run of [download] either raises before any remote call, or
    runs the transfer from a file system in which the directory of the
    absolute local path exists. *)
Lemma download_steps env (s s' : State IllSftp) remote_path local_path r :
  PyStr.startswith (getcwd (world s)) "/" = true ->
  download env remote_path local_path s = (r, s') ->
  let cwd := getcwd (world s) in
  let dest_dir := posixpath.dirname (posixpath.abspath cwd local_path) in
  (exists e, r = Raise e /\ log (world s') = log (world s)) \/
  (exists c s1,
     conn_get env c (_join_posix (_propdir (self s)) [remote_path])
              local_path s1 = (r, s') /\
     LocalFs.isdir (fs (world s1)) cwd dest_dir = true).
Proof.
  intros Hcwd Hd cwd dest_dir.
  destruct (abspath_abs cwd local_path Hcwd) as [Habs Hplain].
  assert (Htruthy : PyStr.truthy dest_dir = true)
    by (apply dirname_abs; exact Habs).
  assert (Hdplain : plain_path dest_dir) by (apply dirname_plain; exact Hplain).
  revert Hd. unfold download, os_makedirs. py_unfold.
  cbn -[posixpath.dirname posixpath.abspath LocalFs.isdir LocalFs.makedirs
        conn_get _join_posix].
  destruct (_connection (self s)) as [c|] eqn:Ec;
    cbn -[posixpath.dirname posixpath.abspath LocalFs.isdir
          LocalFs.makedirs conn_get _join_posix];
    [|intros H; inversion H; subst; left; eauto].
  destruct (PyStr.truthy (_proposal (self s)));
    cbn -[posixpath.dirname posixpath.abspath LocalFs.isdir
          LocalFs.makedirs conn_get _join_posix];
    [|intros H; inversion H; subst; left; eauto].
  rewrite Ec.
  cbn -[posixpath.dirname posixpath.abspath LocalFs.isdir
        LocalFs.makedirs conn_get _join_posix].
  fold cwd. fold dest_dir. rewrite Htruthy. fold cwd.
  destruct (LocalFs.isdir (fs (world s)) cwd dest_dir) eqn:Ei;
    cbn -[posixpath.dirname posixpath.abspath LocalFs.isdir
          LocalFs.makedirs conn_get _join_posix].
  - intros H. right. exists c, s. destruct s as [o w]. simpl in *. auto.
  - fold cwd.
    destruct (LocalFs.makedirs true (fs (world s)) cwd dest_dir)
      as [[u|e] t] eqn:Em;
      cbn -[posixpath.dirname posixpath.abspath LocalFs.isdir
            LocalFs.makedirs conn_get _join_posix].
    + intros H. right. eexists c, _. split; [exact H|].
      destruct u. apply (makedirs_ok _ _ _ _ Hdplain Em).
    + intros H. inversion H; subst. left. eauto.
Qed.

(** ** Walking a path *)

Section Walking.
Import LocalFs.







End Walking.

Section Names.
Import PyStr.












End Names.

(** ** What [os.makedirs] creates *)

Section MakedirsCreates.
Import LocalFs PyStr.












End MakedirsCreates.

(** ** Where a local path leads *)

Section LocalPath.
Import PyStr.














End LocalPath.

(** ** The transfer *)








Example download_example :
  let s' := snd (download Demo.env "f.dat" "out/run1/f.dat" Demo.opened_) in
  fst (download Demo.env "f.dat" "out/run1/f.dat" Demo.opened_) = Ok tt /\
  LocalFs.read_file (fs (world s')) "/home/u" "out/run1/f.dat" = Ok "abc".
Proof. split; reflexivity. Qed.

(** A file in the way makes [os.makedirs], and so the download, fail
    before any transfer. *)
Example download_blocked :
  let w := with_fs (LocalFs.Dir [("home", LocalFs.Dir [("u",
             LocalFs.Dir [("out", LocalFs.File "x")])])])
             (world Demo.opened_) in
  let r := download Demo.env "f.dat" "out/run1/f.dat"
             (mkState (self Demo.opened_) w) in
  fst r = Raise (NotADirectoryError "/home/u/out/run1") /\
  log (world (snd r)) = log (world Demo.opened_).
Proof. split; vm_compute; reflexivity. Qed.

(** * Further properties of the client *)

(** ** The context manager *)

Lemma exit_disconnects env (s : State IllSftp) :
  fst (__exit__ env s) = Ok tt /\
  connected (self (snd (__exit__ env s))) = false.
Proof.
  unfold connected, __exit__. py_unfold. simpl.
  destruct (_connection (self s)) eqn:E; simpl.
  - destruct (close_fails env); simpl; auto.
  - rewrite E. auto.
Qed.

Lemma connect_raise_disconnected env (s s1 : State IllSftp) e :
  connect env s = (Raise e, s1) -> connected (self s1) = false.
Proof.
  unfold connected. py_unfold. simpl.
  destruct (_connection (self s)) eqn:Hc; [discriminate|].
  connect_cases env s;
    try (destruct (accepts env _ _ _ _ _); simpl;
         [ destruct (readlink_of env _); simpl | ]);
    failed_run.
Qed.

(** X1. A [with] block leaves the client disconnected whatever its body
    did.  When [connect()] fails the block raises that error and the body
    does not run; otherwise the block returns or raises what the body
    does, and the state is the one [__exit__] leaves after it. *)
Theorem with_block_releases env {A} (body : M IllSftp A) (s : State IllSftp) :
  connected (self (snd (with_block env body s))) = false /\
  (forall e s1, connect env s = (Raise e, s1) ->
     with_block env body s = (Raise e, s1)) /\
  (forall s1, connect env s = (Ok tt, s1) ->
     fst (with_block env body s) = fst (body s1) /\
     snd (with_block env body s) = snd (__exit__ env (snd (body s1)))).
Proof.
  unfold with_block, __enter__, bind, try_finally.
  destruct (connect env s) as [[[]|e] s1] eqn:Ec.
  - destruct (body s1) as [r s2] eqn:Eb.
    pose proof (exit_disconnects env s2) as [H1 H2].
    destruct (__exit__ env s2) as [[[]|e'] s3] eqn:Ex; simpl in H1;
      [|discriminate].
    simpl in *. split; [exact H2|]. split; [intros; discriminate|].
    intros s1' H. inversion H; subst. rewrite Eb. simpl. rewrite Ex. auto.
  - simpl. split; [apply (connect_raise_disconnected env s s1 e Ec)|].
    split; [intros e' s1' H; inversion H; reflexivity|intros; discriminate].
Qed.

Lemma with_block_releases_witness :
  fst (with_block Demo.env (listdir Demo.env "." false) Demo.fresh)
  = Raise NoProposalSelectedError /\
  connected (self (snd (with_block Demo.env (listdir Demo.env "." false)
                          Demo.fresh))) = false.
Proof.
  split.
  - exact (proj1 (proj2 (proj2 (with_block_releases Demo.env
             (listdir Demo.env "." false) Demo.fresh)) Demo.connected_ eq_refl)).
  - exact (proj1 (with_block_releases Demo.env (listdir Demo.env "." false)
                    Demo.fresh)).
Defined.

(** ** After [disconnect()] *)

Lemma disconnect_frame env (s : State IllSftp) :
  _connection (self (snd (disconnect env s))) = None /\
  _home (self (snd (disconnect env s))) = _home (self s) /\
  _proposal (self (snd (disconnect env s))) = _proposal (self s) /\
  _propdir (self (snd (disconnect env s))) = _propdir (self s) /\
  known_hosts_path (self (snd (disconnect env s))) = known_hosts_path (self s) /\
  opened (world (snd (disconnect env s))) = opened (world s) /\
  cwds (world (snd (disconnect env s))) = cwds (world s).
Proof.
  py_unfold. simpl. destruct (_connection (self s)) eqn:E; simpl.
  - destruct (close_fails env); simpl; repeat split; reflexivity.
  - rewrite E. repeat split; reflexivity.
Qed.

Lemma operations_disconnected env (s : State IllSftp) rp wa lp value :
  _connection (self s) = None ->
  listdir env rp wa s = (Raise NotConnectedError, s) /\
  download env rp lp s = (Raise NotConnectedError, s) /\
  open_proposal env value s = (Raise NotConnectedError, s) /\
  gen_next env GenCreated s = (Raise NotConnectedError, GenFinished, s).
Proof.
  intros H. unfold gen_next. py_unfold. simpl. rewrite H.
  repeat split; reflexivity.
Qed.

(** X2. After [disconnect()], from any state, [listdir], [download],
    [open_proposal] and the first [next] of [proposals()] raise
    [NotConnectedError] and change nothing: no remote call, no new id. *)
Theorem after_disconnect_not_connected env (s : State IllSftp)
  rp wa lp value :
  let s' := snd (disconnect env s) in
  listdir env rp wa s' = (Raise NotConnectedError, s') /\
  download env rp lp s' = (Raise NotConnectedError, s') /\
  open_proposal env value s' = (Raise NotConnectedError, s') /\
  gen_next env GenCreated s' = (Raise NotConnectedError, GenFinished, s').
Proof.
  intros s'. apply operations_disconnected.
  apply (proj1 (disconnect_frame env s)).
Qed.

(** ** The selection across a reconnection *)

(** X3. The selection survives a reconnection: after [disconnect()] and a
    [connect()] that succeeds, the proposal id and directory are the old
    ones and [listdir] lists below the old directory on the new
    connection, without [open_proposal]. *)
Theorem selection_survives_reconnect env (s s2 : State IllSftp) rp entries :
  PyStr.truthy (_proposal (self s)) = true ->
  cwd_of (opened (world s)) (cwds (world s)) = None ->
  connect env (snd (disconnect env s)) = (Ok tt, s2) ->
  listdir_of env (_join_posix (_propdir (self s)) [rp]) = Some entries ->
  proposal (self s2) = proposal (self s) /\
  _propdir (self s2) = _propdir (self s) /\
  fst (listdir env rp false s2) = Ok (Names (map filename entries)).
Proof.
  intros Hp Hw Hc Hl.
  destruct (disconnect_frame env s) as (D1 & D2 & D3 & D4 & D5 & D6 & D7).
  assert (Hw' : cwd_of (opened (world (snd (disconnect env s))))
                       (cwds (world (snd (disconnect env s)))) = None)
    by (rewrite D6, D7; exact Hw).
  destruct (connect_ok_inv env _ s2 D1 Hw' Hc) as (h & verify & Hh & ->).
  unfold proposal. cbn [self with_home with_connection _proposal _propdir].
  rewrite D3, D4. split; [reflexivity|]. split; [reflexivity|].
  unfold listdir. py_unfold.
  cbn -[_join_posix adjust_cwd]. rewrite D3, Hp.
  cbn -[_join_posix adjust_cwd]. rewrite D4, D6, D7, Hw.
  unfold adjust_cwd. rewrite Hl. reflexivity.
Qed.

Lemma selection_survives_reconnect_witness :
  proposal (self (snd (connect Demo.env (snd (disconnect Demo.env Demo.opened_)))))
  = "12345" /\
  fst (listdir Demo.env "." false
         (snd (connect Demo.env (snd (disconnect Demo.env Demo.opened_)))))
  = Ok (Names ["f.dat"]).
Proof.
  assert (Hc : connect Demo.env (snd (disconnect Demo.env Demo.opened_))
               = (Ok tt, snd (connect Demo.env
                                (snd (disconnect Demo.env Demo.opened_)))))
    by (vm_compute; reflexivity).
  assert (Hl : listdir_of Demo.env
                 (_join_posix (_propdir (self Demo.opened_)) ["."])
               = Some [Demo.entry "f.dat"])
    by (vm_compute; reflexivity).
  destruct (selection_survives_reconnect Demo.env Demo.opened_ _
              "." [Demo.entry "f.dat"] eq_refl eq_refl Hc Hl)
    as (H1 & _ & H3).
  split; [exact H1|exact H3].
Defined.

(** ** Opening a proposal *)

(** X5. The empty id selects nothing: after [open_proposal("")],
    whether it raised or not, [listdir] raises
    [NoProposalSelectedError]. *)
Theorem open_proposal_empty_id env (s : State IllSftp) c rp wa :
  _connection (self s) = Some c ->
  let s' := snd (open_proposal env "" s) in
  listdir env rp wa s' = (Raise NoProposalSelectedError, s').
Proof.
  intros Hc s'. subst s'. py_unfold. cbn -[_join_posix adjust_cwd].
  rewrite Hc. cbn -[_join_posix adjust_cwd].
  destruct (realdir_of env _); cbn -[_join_posix adjust_cwd];
    [destruct (readlink_of env _); cbn -[_join_posix adjust_cwd]|];
    rewrite Hc; reflexivity.
Qed.

Lemma open_proposal_empty_id_witness :
  listdir Demo.env "." false (snd (open_proposal Demo.env "" Demo.opened_))
  = (Raise NoProposalSelectedError,
     snd (open_proposal Demo.env "" Demo.opened_)).
Proof.
  exact (open_proposal_empty_id Demo.env Demo.opened_ 0 "." false eq_refl).
Defined.

(** ** Paths sent to the server *)

Lemma join_posix_render a b :
  PyStr.startswith b "/" = false ->
  _join_posix a [b]
  = PyStr.or_else (path_root a ++ PyStr.join_sep (path_parts a ++ path_parts b))
                  ".".
Proof.
  intros Hb. unfold _join_posix, pathlib.to_str, pathlib.format_parsed_parts,
    pathlib.root, pathlib.tail.
  change (pathlib.joined (fold_left pathlib.truediv [b] (pathlib.of_string a)))
    with (posixpath.join_step a b).
  rewrite (join_posix_parts a b Hb). reflexivity.
Qed.

Lemma path_root_abs a :
  PyStr.startswith a "/" = true -> PyStr.startswith (path_root a) "/" = true.
Proof.
  intros H. pose proof (path_root_parts a) as P.
  assert (Ht : PyStr.truthy a = true) by (destruct a; [discriminate|reflexivity]).
  rewrite (parse_path_truthy a Ht) in P. injection P as P _. rewrite <- P.
  unfold posixpath.splitroot.
  destruct a as [|c1 a1]; [discriminate|].
  cbn [PyStr.startswith] in H. apply andb_true_iff in H. destruct H as [H _].
  cbn [PyStr.slice_to PyStr.slice_from]. rewrite one_char_eqb, H. cbn [negb].
  destruct (negb _ || _); cbn [fst]; [reflexivity|].
  cbn [PyStr.startswith]. rewrite H. reflexivity.
Qed.

Lemma join_posix_abs a b :
  PyStr.startswith a "/" = true ->
  PyStr.startswith b "/" = false ->
  PyStr.startswith (_join_posix a [b]) "/" = true.
Proof.
  intros Ha Hb. rewrite (join_posix_render a b Hb).
  pose proof (path_root_abs a Ha) as Hr.
  destruct (path_root a) as [|c r]; [discriminate|].
  exact Hr.
Qed.

Lemma adjust_cwd_abs cw p :
  PyStr.startswith p "/" = true -> adjust_cwd cw p = p.
Proof. intros H. unfold adjust_cwd. destruct cw; [rewrite H|]; reflexivity. Qed.

Lemma cwd_of_head c d l : cwd_of c ((c, d) :: l) = Some d.
Proof. simpl. rewrite Nat.eqb_refl. reflexivity. Qed.

(** ** Re-opening a proposal *)

(** X4. With an absolute home directory, [open_proposal] succeeds from
    any earlier selection and working directory when the server has the
    [byProposal] directory and the link: the id, the directory and the
    working directory of the connection are the new ones, the home
    directory and the connection are kept. *)
Theorem open_proposal_replaces env (s : State IllSftp) c value d pd :
  _connection (self s) = Some c ->
  PyStr.startswith (_home (self s)) "/" = true ->
  realdir_of env (_join_posix (_home (self s)) ["byProposal"]) = Some d ->
  readlink_of env (adjust_cwd (Some d) ("exp_" ++ value)) = Some pd ->
  exists s',
    open_proposal env value s = (Ok tt, s') /\
    proposal (self s') = value /\
    _propdir (self s') = pd /\
    _home (self s') = _home (self s) /\
    _connection (self s') = Some c /\
    cwd_of c (cwds (world s')) = Some d.
Proof.
  intros Hc Hh Hcd Hrl.
  assert (Habs : PyStr.startswith (_join_posix (_home (self s)) ["byProposal"])
                                  "/" = true)
    by (apply join_posix_abs; [exact Hh|reflexivity]).
  unfold proposal. py_unfold. cbn -[_join_posix adjust_cwd append].
  rewrite Hc. cbn -[_join_posix adjust_cwd append].
  rewrite (adjust_cwd_abs _ _ Habs), Hcd.
  cbn -[_join_posix adjust_cwd append].
  rewrite Nat.eqb_refl, Hrl. cbn -[_join_posix adjust_cwd append].
  eexists. split; [reflexivity|]. cbn. rewrite Nat.eqb_refl.
  repeat split; try reflexivity. exact Hc.
Qed.

Lemma open_proposal_replaces_witness :
  exists s',
    open_proposal Demo.env "12345"
      (snd (open_proposal Demo.env "999" Demo.opened_)) = (Ok tt, s') /\
    proposal (self s') = "12345" /\
    _propdir (self s') = "/data/exp_12345".
Proof.
  destruct (open_proposal_replaces Demo.env
              (snd (open_proposal Demo.env "999" Demo.opened_)) 0 "12345"
              "/users/u/byProposal" "/data/exp_12345"
              eq_refl eq_refl eq_refl eq_refl) as (s' & H1 & H2 & H3 & _).
  exists s'. repeat split; assumption.
Defined.

(** ** Host keys *)

(** X6. [connect()] asks for host-key verification exactly when a
    non-empty known-hosts path is configured: every connection it
    attempts carries that flag and the client's host, user and port; and
    when the known-hosts file cannot be loaded it raises without
    attempting a connection. *)
Theorem connect_host_key_policy env (s : State IllSftp) :
  _connection (self s) = None ->
  (forall path,
     known_hosts_path (self s) = Some path ->
     PyStr.truthy path = true ->
     known_hosts_loads env path = false ->
     fst (connect env s) = Raise (IllDataError (FileNotFoundError path)) /\
     world (snd (connect env s)) = world s) /\
  (forall h u p v,
     In (EvOpen h u p v) (log (world (snd (connect env s)))) ->
     In (EvOpen h u p v) (log (world s)) \/
     (h = hostname (self s) /\ u = username (self s) /\ p = port (self s) /\
      v = verifies_host_key (self s))).
Proof.
  intros Hc. split.
  - intros path Hk Ht Hl. py_unfold. simpl. rewrite Hc, Hk. simpl.
    rewrite Ht, Hl. simpl. split; reflexivity.
  - intros h u p v. unfold verifies_host_key. py_unfold. simpl. rewrite Hc.
    connect_cases env s;
      try (destruct (accepts env _ _ _ _ _); simpl;
           [ destruct (readlink_of env _); simpl | ]);
      simpl; intros H;
      repeat (destruct H as [H|H]; try discriminate;
              try (inversion H; subst; right; repeat split; reflexivity));
      auto.
Qed.

Lemma connect_host_key_policy_witness :
  In (EvOpen "sftp.ill.eu" "u" 22 false) (log (world Demo.fresh)) \/
  ("sftp.ill.eu" = hostname (self Demo.fresh) /\
   "u" = username (self Demo.fresh) /\
   22%Z = port (self Demo.fresh) /\
   false = verifies_host_key (self Demo.fresh)).
Proof.
  apply (proj2 (connect_host_key_policy Demo.env Demo.fresh eq_refl)
           "sftp.ill.eu" "u" 22%Z false).
  vm_compute. auto.
Defined.

(** ** The normal form of a joined path *)

Section NormalForm.
Import PyStr.

Lemma join_posix_nil a :
  _join_posix a [] = or_else (path_root a ++ join_sep (path_parts a)) ".".
Proof. reflexivity. Qed.

Lemma join_posix_dot_eq a :
  _join_posix a ["."] = _join_posix a [] /\
  _join_posix a [""] = _join_posix a [].
Proof.
  rewrite join_posix_nil. split.
  - rewrite (join_posix_render a "." eq_refl).
    change (path_parts ".") with (@nil string). rewrite app_nil_r. reflexivity.
  - rewrite (join_posix_render a "" eq_refl).
    change (path_parts "") with (@nil string). rewrite app_nil_r. reflexivity.
Qed.

(** X8. Joining ["."] or the empty string adds nothing: the result is
    the first segment in normal form; with an empty first segment it is
    ["."]. *)
Theorem join_posix_dot a :
  _join_posix a ["."] = _join_posix a [] /\
  _join_posix a [""] = _join_posix a [] /\
  _join_posix "" ["."] = ".".
Proof.
  split; [apply join_posix_dot_eq|]. split; [apply join_posix_dot_eq|].
  reflexivity.
Qed.

Lemma filter_keep_proper names :
  Forall proper_name names -> filter pathlib.keep_comp names = names.
Proof.
  induction 1 as [|c names (H1 & H2 & _) _ IH]; simpl; [reflexivity|].
  unfold pathlib.keep_comp at 1.
  apply truthy_true_iff in H1. apply String.eqb_neq in H2.
  rewrite H1, H2, IH. reflexivity.
Qed.

Lemma proper_first_char c r :
  proper_name (String c r) -> Ascii.eqb c "/" = false.
Proof.
  intros (_ & _ & H). simpl in H. apply orb_false_iff in H. apply H.
Qed.

Lemma join_sep_cons x names :
  x <> "" -> exists c r, join_sep (x :: names) = String c r /\
                         x = String c (match x with String _ t => t | _ => "" end).
Proof.
  intros Hx. destruct x as [|c t]; [congruence|].
  unfold join_sep. destruct names; simpl; eauto.
Qed.

Lemma render_parse root names :
  valid_root root ->
  Forall proper_name names ->
  pathlib.parse_path (or_else (root ++ join_sep names) ".") = (root, names).
Proof.
  intros Hr Hp. destruct names as [|x names].
  - destruct Hr as [->|[->| ->]]; reflexivity.
  - assert (Hsplit : filter pathlib.keep_comp (split_sep (join_sep (x :: names)))
                     = x :: names).
    { rewrite split_sep_join_names; [apply filter_keep_proper; exact Hp
                                    |discriminate|].
      apply Forall_forall. intros c Hc. rewrite Forall_forall in Hp.
      apply (Hp c Hc). }
    inversion Hp as [|? ? Hx _]; subst.
    destruct (join_sep_cons x names (proj1 Hx)) as (c & r & Hj & Hxc).
    assert (Hc : Ascii.eqb c "/" = false)
      by (rewrite Hxc in Hx; apply (proper_first_char _ _ Hx)).
    rewrite Hj in *.
    destruct Hr as [->|[->| ->]].
    + cbn [append or_else truthy]. rewrite parse_path_truthy by reflexivity.
      unfold posixpath.splitroot. cbn [slice_to slice_from].
      rewrite one_char_eqb, Hc. cbn [negb fst snd]. rewrite Hsplit. reflexivity.
    + cbn [append or_else truthy]. rewrite parse_path_truthy by reflexivity.
      unfold posixpath.splitroot. cbn [slice_to slice_from].
      rewrite !one_char_eqb, Hc. cbn [negb orb fst snd Ascii.eqb Bool.eqb].
      rewrite Hsplit. reflexivity.
    + cbn [append or_else truthy]. rewrite parse_path_truthy by reflexivity.
      unfold posixpath.splitroot. cbn [slice_to slice_from].
      rewrite !one_char_eqb, Hc. cbn [negb orb fst snd Ascii.eqb Bool.eqb].
      rewrite Hsplit. reflexivity.
Qed.

Lemma parse_root_valid x : valid_root (fst (pathlib.parse_path x)).
Proof.
  unfold pathlib.parse_path, valid_root.
  destruct (truthy x) eqn:Ht; cbn [negb]; [|auto].
  unfold posixpath.splitroot.
  destruct x as [|c1 x1]; [discriminate|].
  cbn [slice_to slice_from]. rewrite one_char_eqb.
  destruct (Ascii.eqb c1 "/") eqn:E1; cbn [negb]; [|auto].
  destruct x1 as [|c2 x2].
  - cbn. auto.
  - cbn [slice_to slice_from]. rewrite one_char_eqb.
    destruct (Ascii.eqb c2 "/") eqn:E2; cbn [negb orb]; [|cbn; auto].
    destruct (String.eqb _ _); cbn [fst]; [auto|].
    apply Ascii.eqb_eq in E1. apply Ascii.eqb_eq in E2. subst. auto.
Qed.

Lemma parse_parts_proper x : Forall proper_name (snd (pathlib.parse_path x)).
Proof.
  pose proof (path_parts_proper x) as H.
  rewrite (path_root_parts x). exact H.
Qed.

(** X7. What [_join_posix] returns is in normal form: joining nothing to
    it gives it back. *)
Theorem join_posix_normal_form first rest :
  _join_posix (_join_posix first rest) [] = _join_posix first rest.
Proof.
  rewrite join_posix_nil.
  pose proof (path_root_parts (_join_posix first rest)) as P.
  unfold _join_posix at 1 in P. unfold pathlib.to_str, pathlib.format_parsed_parts,
    pathlib.root, pathlib.tail in P.
  set (j := pathlib.joined (fold_left pathlib.truediv rest (pathlib.of_string first))) in *.
  rewrite (render_parse _ _ (parse_root_valid j) (parse_parts_proper j)) in P.
  injection P as P1 P2. rewrite <- P1, <- P2. reflexivity.
Qed.

End NormalForm.

(** ** Listing *)

Lemma listdir_run env (s : State IllSftp) c rp wa :
  _connection (self s) = Some c ->
  PyStr.truthy (_proposal (self s)) = true ->
  listdir env rp wa s
  = listing_result env c
      (adjust_cwd (cwd_of c (cwds (world s)))
                  (_join_posix (_propdir (self s)) [rp])) wa s.
Proof.
  intros Hc Hp. unfold listdir, listing_result, after_call. py_unfold.
  cbn -[_join_posix adjust_cwd]. rewrite Hc. cbn -[_join_posix adjust_cwd].
  rewrite Hp. cbn -[_join_posix adjust_cwd]. rewrite Hc.
  destruct wa; cbn -[_join_posix adjust_cwd];
    destruct (listdir_of env _); reflexivity.
Qed.

Lemma join_posix_self_abs rp :
  PyStr.startswith rp "/" = true ->
  PyStr.startswith (_join_posix rp []) "/" = true.
Proof.
  intros H. rewrite join_posix_nil.
  pose proof (path_root_abs rp H) as Hr.
  destruct (path_root rp); [discriminate|exact Hr].
Qed.

Lemma absolute_wire_path cw d rp :
  PyStr.startswith rp "/" = true ->
  adjust_cwd cw (_join_posix d [rp]) = _join_posix rp [].
Proof.
  intros H. rewrite (join_posix_absolute d rp H).
  apply adjust_cwd_abs. apply join_posix_self_abs. exact H.
Qed.

(** X9. An absolute remote path is not below the proposal directory:
    [listdir] sends it to the server as it is (in normal form), whatever
    the proposal directory and the working directory of the connection
    are. *)
Theorem listdir_absolute_path env (s : State IllSftp) c rp wa :
  _connection (self s) = Some c ->
  PyStr.truthy (_proposal (self s)) = true ->
  PyStr.startswith rp "/" = true ->
  listdir env rp wa s = listing_result env c (_join_posix rp []) wa s.
Proof.
  intros Hc Hp Hrp. rewrite (listdir_run env s c rp wa Hc Hp).
  rewrite (absolute_wire_path _ _ rp Hrp). reflexivity.
Qed.

Lemma listdir_absolute_path_witness :
  fst (listdir Demo.env "/users/u/byProposal" false Demo.opened_)
  = Ok (Names ["exp_12345"; "sandbox"; "exp_99"]).
Proof.
  rewrite (listdir_absolute_path Demo.env Demo.opened_ 0
             "/users/u/byProposal" false eq_refl eq_refl eq_refl).
  reflexivity.
Defined.

(** X10. [listdir(".")] lists the proposal directory itself, below the
    working directory of the connection when it is relative; with
    [with_attr] the entries come with their attributes, without it
    their names. *)
Theorem listdir_default_path env (s : State IllSftp) c wa :
  _connection (self s) = Some c ->
  PyStr.truthy (_proposal (self s)) = true ->
  listdir env "." wa s
  = listing_result env c
      (adjust_cwd (cwd_of c (cwds (world s)))
                  (_join_posix (_propdir (self s)) [])) wa s.
Proof.
  intros Hc Hp. rewrite (listdir_run env s c "." wa Hc Hp).
  rewrite (proj1 (join_posix_dot_eq (_propdir (self s)))). reflexivity.
Qed.

Lemma listdir_default_path_witness :
  listdir Demo.env "." true Demo.opened_
  = listing_result Demo.env 0 "/data/exp_12345" true Demo.opened_.
Proof.
  exact (listdir_default_path Demo.env Demo.opened_ 0 true eq_refl eq_refl).
Defined.

(** ** Ids and links *)

Lemma startswith_append p : forall obj,
  PyStr.startswith obj p = true ->
  (p ++ PyStr.slice_from (String.length p) obj)%string = obj.
Proof.
  induction p as [|b p IH]; intros obj H; simpl in *.
  - reflexivity.
  - destruct obj as [|a obj]; [discriminate|].
    apply andb_true_iff in H. destruct H as [H1 H2].
    apply Ascii.eqb_eq in H1. subst. rewrite (IH obj H2). reflexivity.
Qed.

Lemma append_length_neq (p obj : string) : p <> "" -> (p ++ obj)%string <> obj.
Proof.
  intros Hp H. apply (f_equal String.length) in H.
  rewrite length_append in H. destruct p; [congruence|]. simpl in H. lia.
Qed.

(** X11. An id that [proposals()] yields for an entry with the [exp_]
    prefix names that entry again: [open_proposal] on it reads the link
    of that very name.  For an entry without the prefix the id is the
    entry, and [open_proposal] reads another name, [exp_] followed by
    it. *)
Theorem proposal_id_names_its_link env (s : State IllSftp) c d obj :
  _connection (self s) = Some c ->
  realdir_of env (adjust_cwd (cwd_of c (cwds (world s)))
                             (_join_posix (_home (self s)) ["byProposal"]))
  = Some d ->
  (PyStr.startswith obj "exp_" = true ->
   exists rest,
     log (world (snd (open_proposal env (strip_exp obj) s)))
     = EvReadlink c (adjust_cwd (Some d) obj) :: rest) /\
  (PyStr.startswith obj "exp_" = false ->
   exists rest,
     log (world (snd (open_proposal env (strip_exp obj) s)))
     = EvReadlink c (adjust_cwd (Some d) ("exp_" ++ obj)) :: rest /\
     ("exp_" ++ obj)%string <> obj).
Proof.
  intros Hc Hcd.
  assert (Hlog : forall value, exists rest,
            log (world (snd (open_proposal env value s)))
            = EvReadlink c (adjust_cwd (Some d) ("exp_" ++ value)) :: rest).
  { intros value. py_unfold. cbn -[_join_posix adjust_cwd append].
    rewrite Hc. cbn -[_join_posix adjust_cwd append]. rewrite Hcd.
    cbn -[_join_posix adjust_cwd append]. rewrite Nat.eqb_refl.
    destruct (readlink_of env _); cbn -[_join_posix adjust_cwd append];
      eauto. }
  split; intros Hs.
  - destruct (Hlog (strip_exp obj)) as [rest Hr]. exists rest. rewrite Hr.
    unfold strip_exp. rewrite Hs.
    pose proof (startswith_append "exp_" obj Hs) as Ha.
    cbn [String.length] in Ha. rewrite Ha. reflexivity.
  - destruct (Hlog (strip_exp obj)) as [rest Hr]. exists rest.
    rewrite Hr. unfold strip_exp. rewrite Hs. split; [reflexivity|].
    apply append_length_neq. discriminate.
Qed.

Lemma proposal_id_names_its_link_witness :
  exists rest,
    log (world (snd (open_proposal Demo.env (strip_exp "exp_12345")
                       Demo.connected_)))
    = EvReadlink 0 "/users/u/byProposal/exp_12345" :: rest.
Proof.
  exact (proj1 (proposal_id_names_its_link Demo.env Demo.connected_ 0
                  "/users/u/byProposal" "exp_12345" eq_refl eq_refl) eq_refl).
Defined.

(** ** The generator after its first step *)

(** X12. The listing is fetched by the first [next] only: from then on,
    in any later state of the client (disconnected too), the generator
    yields the remaining ids and changes nothing. *)
Theorem proposals_listing_fetched_once env (s : State IllSftp) c entries :
  _connection (self s) = Some c ->
  listdir_of env (proposals_path s c) = Some entries ->
  forall (s2 : State IllSftp) fuel,
    List.length entries < fuel ->
    gen_list env fuel (snd (fst (gen_next env GenCreated s))) s2
    = Some (Ok (List.tl (map strip_exp (map filename entries))),
            GenFinished, s2).
Proof.
  intros Hc Hl s2 fuel Hf.
  rewrite (gen_next_created env s c entries Hc Hl).
  destruct entries as [|e es]; cbn [map fst snd List.tl].
  - destruct fuel; [simpl in Hf; lia|]. reflexivity.
  - apply gen_list_suspended. simpl in Hf. rewrite length_map. lia.
Qed.

Lemma proposals_listing_fetched_once_witness :
  gen_list Demo.env 4
    (snd (fst (gen_next Demo.env GenCreated Demo.connected_)))
    (snd (disconnect Demo.env Demo.connected_))
  = Some (Ok ["sandbox"; "99"], GenFinished,
          snd (disconnect Demo.env Demo.connected_)).
Proof.
  exact (proposals_listing_fetched_once Demo.env Demo.connected_ 0
           [Demo.entry "exp_12345"; Demo.entry "sandbox"; Demo.entry "exp_99"]
           eq_refl eq_refl (snd (disconnect Demo.env Demo.connected_)) 4
           (le_n 4)).
Defined.

(** ** What a download leaves on disk *)

Lemma conn_get_stores env c rp lp (s1 s' : State IllSftp) :
  conn_get env c rp lp s1 = (Ok tt, s') ->
  PyStr.truthy lp = true ->
  exists data,
    content_of env (adjust_cwd (cwd_of c (cwds (world s1))) rp) = Some data /\
    LocalFs.read_file (fs (world s')) (getcwd (world s1)) lp = Ok data.
Proof.
  intros H Hlp. revert H. unfold conn_get. rewrite Hlp. py_unfold.
  cbn -[adjust_cwd LocalFs.write_file LocalFs.read_file].
  destruct (LocalFs.write_file (fs (world s1)) (getcwd (world s1)) lp "")
    as [t0|e] eqn:E0; cbn -[adjust_cwd LocalFs.write_file LocalFs.read_file];
    [|discriminate].
  destruct (content_of env _) as [data|];
    cbn -[adjust_cwd LocalFs.write_file LocalFs.read_file]; [|discriminate].
  destruct (LocalFs.write_file t0 (getcwd (world s1)) lp data)
    as [t1|e] eqn:E1; cbn -[adjust_cwd LocalFs.write_file LocalFs.read_file];
    [|discriminate].
  intros H. inversion H; subst. exists data. split; [reflexivity|].
  cbn -[LocalFs.read_file]. apply (write_then_read _ _ _ _ _ E1).
Qed.

(** A successful [download] went through both guards and ran the transfer
    on the client's connection, from a world that differs from the
    initial one in its file system only. *)
Lemma download_ok_inv env (s s' : State IllSftp) rp lp :
  download env rp lp s = (Ok tt, s') ->
  exists c s1,
    _connection (self s) = Some c /\
    conn_get env c (_join_posix (_propdir (self s)) [rp]) lp s1 = (Ok tt, s') /\
    cwds (world s1) = cwds (world s) /\
    getcwd (world s1) = getcwd (world s).
Proof.
  unfold download, os_makedirs. py_unfold.
  cbn -[posixpath.dirname posixpath.abspath LocalFs.isdir LocalFs.makedirs
        conn_get _join_posix].
  destruct (_connection (self s)) as [c|] eqn:Ec;
    cbn -[posixpath.dirname posixpath.abspath LocalFs.isdir
          LocalFs.makedirs conn_get _join_posix]; [|discriminate].
  destruct (PyStr.truthy (_proposal (self s)));
    cbn -[posixpath.dirname posixpath.abspath LocalFs.isdir
          LocalFs.makedirs conn_get _join_posix]; [|discriminate].
  rewrite Ec.
  cbn -[posixpath.dirname posixpath.abspath LocalFs.isdir
        LocalFs.makedirs conn_get _join_posix].
  set (dest := posixpath.dirname _).
  destruct (PyStr.truthy dest);
    cbn -[posixpath.dirname posixpath.abspath LocalFs.isdir
          LocalFs.makedirs conn_get _join_posix].
  - destruct (LocalFs.isdir (fs (world s)) (getcwd (world s)) dest);
      cbn -[posixpath.dirname posixpath.abspath LocalFs.isdir
            LocalFs.makedirs conn_get _join_posix].
    + intros H. exists c, s. destruct s as [o w]. simpl in *. auto.
    + destruct (LocalFs.makedirs true (fs (world s)) (getcwd (world s)) dest)
        as [[u|e] t];
        cbn -[posixpath.dirname posixpath.abspath LocalFs.isdir
              LocalFs.makedirs conn_get _join_posix]; [|discriminate].
      intros H. eexists c, _. split; [reflexivity|]. split; [exact H|].
      split; reflexivity.
  - intros H. exists c, s. destruct s as [o w]. simpl in *. auto.
Qed.

(** X13. After a [download] that succeeded with a non-empty local path,
    reading that path gives the content the server holds at the joined
    remote path, whatever was there before. *)
Theorem download_stores_content env (s s' : State IllSftp) rp lp :
  download env rp lp s = (Ok tt, s') ->
  PyStr.truthy lp = true ->
  exists c data,
    _connection (self s) = Some c /\
    content_of env (adjust_cwd (cwd_of c (cwds (world s)))
                               (_join_posix (_propdir (self s)) [rp]))
    = Some data /\
    LocalFs.read_file (fs (world s')) (getcwd (world s)) lp = Ok data.
Proof.
  intros Hd Hlp.
  destruct (download_ok_inv env s s' rp lp Hd) as (c & s1 & Hc & Hg & Hw & Hcw).
  destruct (conn_get_stores env c _ lp s1 s' Hg Hlp) as (data & H1 & H2).
  exists c, data. rewrite Hw in H1. rewrite Hcw in H2. auto.
Qed.

Lemma download_stores_content_witness :
  LocalFs.read_file
    (fs (world (snd (download Demo.env "f.dat" "out/run1/f.dat"
                       Demo.opened_))))
    "/home/u" "out/run1/f.dat" = Ok "abc".
Proof.
  destruct (download_stores_content Demo.env Demo.opened_
              (snd (download Demo.env "f.dat" "out/run1/f.dat" Demo.opened_))
              "f.dat" "out/run1/f.dat" eq_refl eq_refl)
    as (c & data & Hc & H1 & H2).
  change (Some 0 = Some c) in Hc. injection Hc as <-.
  change (Some "abc" = Some data) in H1. injection H1 as <-.
  exact H2.
Defined.

(** X14. Every run of [download], failing ones too, either raises
    without having issued a remote call, or runs the transfer from a file
    system in which the directory of the absolute local path exists. *)
Theorem download_transfer_needs_directory env (s s' : State IllSftp)
  rp lp r :
  PyStr.startswith (getcwd (world s)) "/" = true ->
  download env rp lp s = (r, s') ->
  (exists e, r = Raise e /\ log (world s') = log (world s)) \/
  (exists c s1,
     conn_get env c (_join_posix (_propdir (self s)) [rp]) lp s1 = (r, s') /\
     LocalFs.isdir (fs (world s1)) (getcwd (world s))
       (posixpath.dirname (posixpath.abspath (getcwd (world s)) lp)) = true).
Proof. intros Hcwd Hd. exact (download_steps env s s' rp lp r Hcwd Hd). Qed.

Lemma download_transfer_needs_directory_witness :
  let run := download Demo.env "f.dat" "out/run1/f.dat" Demo.opened_ in
  (exists e, fst run = Raise e /\
             log (world (snd run)) = log (world Demo.opened_)) \/
  (exists c s1,
     conn_get Demo.env c "/data/exp_12345/f.dat" "out/run1/f.dat" s1
     = (fst run, snd run) /\
     LocalFs.isdir (fs (world s1)) "/home/u" "/home/u/out/run1" = true).
Proof.
  exact (download_transfer_needs_directory Demo.env Demo.opened_
           (snd (download Demo.env "f.dat" "out/run1/f.dat" Demo.opened_))
           "f.dat" "out/run1/f.dat"
           (fst (download Demo.env "f.dat" "out/run1/f.dat" Demo.opened_))
           eq_refl eq_refl).
Defined.

(** ** The older client *)

Ltac legacy_unfold :=
  unfold Legacy.connect, Legacy.disconnect, Legacy.listdir, Legacy.download,
    Legacy.upload, Legacy.openproposal, Legacy.listdir_body,
    Legacy.download_body, Legacy.upload_body, Legacy.has_proposal,
    Legacy.attr in *.

(** X15. In the older client a refused connection on a client that has
    no connection yet raises [AttributeError]: the [finally] clause reads
    [MyData] on [None], and that error replaces the one of the
    library. *)
Theorem legacy_connect_failure_masked env (s : State Legacy.IllSftp) :
  Legacy.connection (self s) = None ->
  accepts env (Legacy.hostname (self s)) (Legacy.username (self s))
          (Legacy.password (self s)) (Legacy.port (self s)) false = false ->
  Legacy.connect env s
  = (Raise AttributeError,
     after_call (EvOpen (Legacy.hostname (self s)) (Legacy.username (self s))
                        (Legacy.port (self s)) false) s).
Proof.
  intros Hc Ha. legacy_unfold. py_unfold. simpl. rewrite Ha. simpl.
  rewrite Hc. reflexivity.
Qed.

Lemma legacy_connect_failure_masked_witness :
  fst (Legacy.connect Demo.env DemoLegacy.intruder) = Raise AttributeError.
Proof.
  rewrite (legacy_connect_failure_masked Demo.env DemoLegacy.intruder
             eq_refl eq_refl).
  reflexivity.
Defined.

(** X16. The older [connect] has no early return: whenever the server
    accepts, it makes a new connection, resolves [MyData] on it and
    replaces the connection the client held. *)
Theorem legacy_connect_always_opens env (s : State Legacy.IllSftp) h :
  accepts env (Legacy.hostname (self s)) (Legacy.username (self s))
          (Legacy.password (self s)) (Legacy.port (self s)) false = true ->
  cwd_of (opened (world s)) (cwds (world s)) = None ->
  readlink_of env "MyData" = Some h ->
  exists s',
    Legacy.connect env s = (Ok tt, s') /\
    Legacy.connection (self s') = Some (opened (world s)) /\
    Legacy._home (self s') = Some h /\
    Legacy._proposal (self s') = Legacy._proposal (self s) /\
    opened (world s') = S (opened (world s)) /\
    log (world s')
    = EvReadlink (opened (world s)) "MyData"
      :: EvOpen (Legacy.hostname (self s)) (Legacy.username (self s))
                (Legacy.port (self s)) false
      :: log (world s).
Proof.
  intros Ha Hw Hr. legacy_unfold. py_unfold. simpl. rewrite Ha. simpl.
  rewrite Hw. unfold adjust_cwd. simpl. rewrite Hr. simpl.
  eexists. repeat split; reflexivity.
Qed.

Lemma legacy_connect_always_opens_witness :
  exists s',
    Legacy.connect Demo.env (snd (Legacy.connect Demo.env Demo.legacy_fresh))
    = (Ok tt, s') /\
    Legacy.connection (self s') = Some 1 /\
    opened (world s') = 2.
Proof.
  destruct (legacy_connect_always_opens Demo.env
              (snd (Legacy.connect Demo.env Demo.legacy_fresh)) "/users/u"
              eq_refl eq_refl eq_refl) as (s' & H1 & H2 & _ & _ & H5 & _).
  exists s'. repeat split; assumption.
Defined.

(** X17. The older [disconnect] raises [AttributeError] on a client that
    was never connected, and otherwise closes the connection without
    forgetting it: a second call closes the same connection again. *)
Theorem legacy_disconnect_keeps_connection env (s : State Legacy.IllSftp) :
  (Legacy.connection (self s) = None ->
   Legacy.disconnect env s = (Raise AttributeError, s)) /\
  (forall c, Legacy.connection (self s) = Some c ->
     Legacy.connection (self (snd (Legacy.disconnect env s))) = Some c /\
     log (world (snd (Legacy.disconnect env s))) = EvClose c :: log (world s) /\
     log (world (snd (Legacy.disconnect env
                        (snd (Legacy.disconnect env s)))))
     = EvClose c :: EvClose c :: log (world s)).
Proof.
  split.
  - intros Hc. legacy_unfold. py_unfold. simpl. rewrite Hc. reflexivity.
  - intros c Hc. legacy_unfold. py_unfold. simpl. rewrite Hc. simpl.
    destruct (close_fails env); simpl; rewrite Hc; simpl;
      destruct (close_fails env); simpl; repeat split; reflexivity || exact Hc.
Qed.

Lemma legacy_disconnect_keeps_connection_witness :
  Legacy.disconnect Demo.env Demo.legacy_fresh
  = (Raise AttributeError, Demo.legacy_fresh).
Proof.
  exact (proj1 (legacy_disconnect_keeps_connection Demo.env Demo.legacy_fresh)
           eq_refl).
Defined.

Lemma no_sep_rfind t : has_sep t = false -> posixpath.rfind_sep1 t = 0.
Proof.
  intros H. destruct (rfind_decompose t) as [_ [H0|(x & _ & Hx)]];
    [exact H0|].
  rewrite Hx in H. rewrite has_sep_app_sep in H. discriminate.
Qed.

Lemma split_bare t : has_sep t = false -> posixpath.split t = ("", t).
Proof. intros H. unfold posixpath.split. rewrite (no_sep_rfind t H). reflexivity. Qed.

(** X19. The older [download] cannot write to a bare file name: the
    directory part is empty, [os.makedirs("")] fails, and the call raises
    before any remote call, leaving the disk as it was. *)
Theorem legacy_download_bare_filename env (s : State Legacy.IllSftp)
  remote_path target :
  Legacy._proposal (self s) <> "" ->
  has_sep target = false ->
  fst (Legacy.download env remote_path target s)
  = Raise (Exception (Exception (FileNotFoundError ""))) /\
  self (snd (Legacy.download env remote_path target s)) = self s /\
  log (world (snd (Legacy.download env remote_path target s))) = log (world s) /\
  fs (world (snd (Legacy.download env remote_path target s))) = fs (world s).
Proof.
  intros Hp Ht. apply String.eqb_neq in Hp.
  legacy_unfold. unfold os_makedirs. py_unfold.
  cbn -[posixpath.split LocalFs.isdir LocalFs.makedirs conn_get].
  rewrite Hp. cbn -[posixpath.split LocalFs.isdir LocalFs.makedirs conn_get].
  rewrite (split_bare target Ht).
  cbn. repeat split; reflexivity.
Qed.

Lemma legacy_download_bare_filename_witness :
  fst (Legacy.download Demo.env "f.dat" "f.dat" DemoLegacy.opened_)
  = Raise (Exception (Exception (FileNotFoundError ""))).
Proof.
  exact (proj1 (legacy_download_bare_filename Demo.env DemoLegacy.opened_
                  "f.dat" "f.dat" ltac:(discriminate) eq_refl)).
Defined.

Lemma wrapped_handler {C A} (m : M C A) (s s' : State C) e :
  try_except m (fun err => raise (Exception err)) s = (Raise e, s') ->
  plain_exception e = true.
Proof.
  unfold try_except, raise. destruct (m s) as [[a|e0] s0]; intros H;
    inversion H; reflexivity.
Qed.

Lemma has_proposal_plain {A} (body : M Legacy.IllSftp A)
  (s s' : State Legacy.IllSftp) e :
  (body s = (Raise e, s') -> plain_exception e = true) ->
  Legacy.has_proposal body s = (Raise e, s') -> plain_exception e = true.
Proof.
  intros Hb. unfold Legacy.has_proposal, bind, get_self, raise. simpl.
  destruct (Legacy._proposal (self s) =? "")%string.
  - intros H. inversion H. reflexivity.
  - exact Hb.
Qed.

(** X20. Whatever goes wrong in the older [download] and [upload], the
    error that reaches the caller is a plain [Exception]: the message of
    the guard, or a wrapper around the cause. *)
Theorem legacy_errors_are_plain env (s s' : State Legacy.IllSftp) a b e :
  (Legacy.download env a b s = (Raise e, s') -> plain_exception e = true) /\
  (Legacy.upload env a b s = (Raise e, s') -> plain_exception e = true).
Proof.
  split; apply has_proposal_plain; apply wrapped_handler.
Qed.

Lemma legacy_errors_are_plain_witness :
  plain_exception (Exception (IOError "/data/exp_12345/missing.dat")) = true.
Proof.
  apply (proj1 (legacy_errors_are_plain Demo.env DemoLegacy.opened_
                  (snd (Legacy.download Demo.env "missing.dat" "/home/u/x"
                          DemoLegacy.opened_))
                  "missing.dat" "/home/u/x"
                  (Exception (IOError "/data/exp_12345/missing.dat")))).
  vm_compute. reflexivity.
Defined.

(** X18. On a client that was never connected the older [openproposal]
    raises [AttributeError] after it has stored the id, so that the guard
    of [listdir] passes afterwards and [listdir] raises [AttributeError]
    too. *)
Theorem legacy_openproposal_unconnected env (s : State Legacy.IllSftp)
  value rp a :
  Legacy.connection (self s) = None ->
  value <> "" ->
  Legacy.openproposal env value s
  = (Raise AttributeError, mkState (Legacy.with_proposal value (self s)) (world s)) /\
  fst (Legacy.listdir env rp a (snd (Legacy.openproposal env value s)))
  = Raise AttributeError.
Proof.
  intros Hc Hv. apply String.eqb_neq in Hv.
  assert (H1 : Legacy.openproposal env value s
               = (Raise AttributeError,
                  mkState (Legacy.with_proposal value (self s)) (world s))).
  { legacy_unfold. py_unfold. simpl. rewrite Hc. reflexivity. }
  split; [exact H1|]. rewrite H1.
  legacy_unfold. py_unfold. simpl. rewrite Hv. simpl. rewrite Hc. reflexivity.
Qed.

Lemma legacy_openproposal_unconnected_witness :
  fst (Legacy.listdir Demo.env "." false
         (snd (Legacy.openproposal Demo.env "12345" Demo.legacy_fresh)))
  = Raise AttributeError.
Proof.
  exact (proj2 (legacy_openproposal_unconnected Demo.env Demo.legacy_fresh
                  "12345" "." false eq_refl ltac:(discriminate))).
Defined.
